(** * connect.py: the rate-limit aware Twitter v2 client

    A shallow embedding of [src/connect.py].  Python values decoded from
    JSON are a small inductive type, exceptions are data, and every
    coroutine of [ConnectTwitter] is a function that threads the state of
    the client (rate-limit tracker, clock, event log, id cache) and
    consumes the replies of the transport one at a time. *)

From Stdlib Require Import ZArith List String Ascii Bool Lia.
From stdpp Require Import base option gmap strings list pretty.

Set Warnings "-register-all".
Local Open Scope string_scope.
Local Open Scope list_scope.
Local Open Scope Z_scope.

(** ** Python values *)

(** What [json.loads] can produce, which is also all the client ever
    handles.  Numbers are integers here: the client never computes with
    the numbers of a payload. *)
Inductive pyval : Type :=
| PyNone
| PyBool (b : bool)
| PyInt (n : Z)
| PyStr (s : string)
| PyList (items : list pyval)
| PyDict (fields : list (string * pyval)).

(** Detail objects handed to [HTTPException]. *)
Inductive detail : Type :=
| DetailSet (elems : list pyval)
| DetailPath (p : string)
| DetailKeyError (k : pyval)
| DetailJSONDecodeError (msg : string)
| DetailRequestError (msg : string).

(** The exceptions that can leave the client.  [HTTPException] is
    fastapi's, [RequestError] is httpx's transport failure, the others are
    Python built-ins. *)
Inductive exn : Type :=
| HTTPException (status_code : Z) (d : detail)
| RequestError (msg : string)
| KeyError (k : pyval)
| AttributeError (what : string)
| IndexError
| TypeError (what : string).

(** The typed errors of the client are the [HTTPException]s. *)
Definition is_typed (e : exn) : bool :=
  match e with
  | HTTPException _ _ => true
  | _ => false
  end.

(** A computation that returns or raises. *)
Definition raising (A : Type) : Type := exn + A.

Definition bind_raising {A B} (c : raising A) (k : A -> raising B) : raising B :=
  match c with
  | inl e => inl e
  | inr a => k a
  end.

Notation "'do' x <- c ; k" := (bind_raising c (fun x => k))
  (at level 10, x name, c at level 100, k at level 200).

(** Truth value of an object, as [if obj:] tests it. *)
Definition truthy (v : pyval) : bool :=
  match v with
  | PyNone => false
  | PyBool b => b
  | PyInt n => negb (n =? 0)
  | PyStr s => negb (String.eqb s "")
  | PyList l => match l with [] => false | _ => true end
  | PyDict l => match l with [] => false | _ => true end
  end.

Fixpoint dict_lookup (fields : list (string * pyval)) (k : string) : option pyval :=
  match fields with
  | [] => None
  | (k', v) :: rest => if String.eqb k' k then Some v else dict_lookup rest k
  end.

Definition type_name (v : pyval) : string :=
  match v with
  | PyNone => "NoneType"
  | PyBool _ => "bool"
  | PyInt _ => "int"
  | PyStr _ => "str"
  | PyList _ => "list"
  | PyDict _ => "dict"
  end.

(** [obj.get(k, dflt)]: only a dict has the method. *)
Definition py_get (obj : pyval) (k : string) (dflt : pyval) : raising pyval :=
  match obj with
  | PyDict fields => inr (default dflt (dict_lookup fields k))
  | _ => inl (AttributeError (type_name obj +:+ " object has no attribute get"))
  end.

Fixpoint chars (s : string) : list pyval :=
  match s with
  | EmptyString => []
  | String c rest => PyStr (String c EmptyString) :: chars rest
  end.

(** Position [i] of a sequence, negative positions counting from the end. *)
Definition seq_item (l : list pyval) (i : Z) : raising pyval :=
  let n := Z.of_nat (length l) in
  let j := if i <? 0 then i + n else i in
  if (0 <=? j) && (j <? n)
  then match nth_error l (Z.to_nat j) with
       | Some v => inr v
       | None => inl IndexError
       end
  else inl IndexError.

(** [obj[idx]]. *)
Definition py_getitem (obj idx : pyval) : raising pyval :=
  match obj, idx with
  | PyDict fields, PyStr k =>
      match dict_lookup fields k with
      | Some v => inr v
      | None => inl (KeyError idx)
      end
  | PyDict _, _ => inl (KeyError idx)
  | PyList l, PyInt i => seq_item l i
  | PyList l, PyBool b => seq_item l (if b then 1 else 0)
  | PyStr s, PyInt i => seq_item (chars s) i
  | PyStr s, PyBool b => seq_item (chars s) (if b then 1 else 0)
  | PyList _, _ | PyStr _, _ => inl (TypeError "indices must be integers")
  | _, _ => inl (TypeError (type_name obj +:+ " object is not subscriptable"))
  end.

(** [acc.extend(obj)]: [obj] is iterated, a dict over its keys. *)
Definition py_extend (acc : list pyval) (obj : pyval) : raising (list pyval) :=
  match obj with
  | PyList l => inr (acc ++ l)
  | PyStr s => inr (acc ++ chars s)
  | PyDict fields => inr (acc ++ map (fun kv => PyStr (fst kv)) fields)
  | _ => inl (TypeError (type_name obj +:+ " object is not iterable"))
  end.

(** Equality of the scalars a set literal of this client can hold
    ([True == 1] in Python, hence the mixed cases). *)
Definition scalar_eqb (a b : pyval) : bool :=
  match a, b with
  | PyNone, PyNone => true
  | PyInt x, PyInt y => x =? y
  | PyStr x, PyStr y => String.eqb x y
  | PyBool x, PyBool y => Bool.eqb x y
  | PyBool x, PyInt y | PyInt y, PyBool x => (if x then 1 else 0) =? y
  | _, _ => false
  end.

(** The set literal [{a, b}]. *)
Definition set_literal (a b : pyval) : list pyval :=
  if scalar_eqb a b then [a] else [a; b].

(** ** httpx: URLs, requests, responses *)

(** A URL as the client builds it: the string given to [client.get] and
    the [params] keyword. *)
Record URL : Type := {
  target : string;
  params : list (string * pyval)
}.

Record Request : Type := {
  method : string;
  url : URL
}.

(** [body] is what [response.json()] gives: the message of a
    [JSONDecodeError], or the decoded value. *)
Record Response : Type := {
  status_code : Z;
  headers : list (string * string);
  request : Request;
  body : string + pyval
}.

(** Header names are compared as httpx stores them, in lower case. *)
Fixpoint header_get (hs : list (string * string)) (name : string) : option string :=
  match hs with
  | [] => None
  | (n, v) :: rest => if String.eqb n name then Some v else header_get rest name
  end.

Definition opt_str (o : option string) : pyval :=
  match o with
  | Some s => PyStr s
  | None => PyNone
  end.

Fixpoint take_until (stop : ascii -> bool) (s : string) : string :=
  match s with
  | EmptyString => EmptyString
  | String c rest => if stop c then EmptyString else String c (take_until stop rest)
  end.

Fixpoint drop_until (stop : ascii -> bool) (s : string) : string :=
  match s with
  | EmptyString => EmptyString
  | String c rest => if stop c then s else drop_until stop rest
  end.

Definition is_char (c : ascii) : ascii -> bool := Ascii.eqb c.

(** [url.path]: what follows the authority, up to the query or fragment. *)
Definition path (u : URL) : string :=
  let s := target u in
  let after_authority :=
    match index 0 "://" s with
    | Some i => drop_until (is_char "/") (substring (i + 3)%nat (String.length s - (i + 3))%nat s)
    | None => s
    end in
  match take_until (fun c => is_char "?" c || is_char "#" c) after_authority with
  | EmptyString => "/"
  | p => p
  end.

Definition is_success (r : Response) : bool :=
  (200 <=? status_code r) && (status_code r <=? 299).

(** httpx's [HTTPStatusError] carries the response it is about. *)
Record HTTPStatusError : Type := { exc_response : Response }.

(** [response.raise_for_status()]: raises unless the status is 2xx. *)
Definition raise_for_status (r : Response) : HTTPStatusError + unit :=
  if is_success r then inr tt else inl {| exc_response := r |}.

(** ** The rate-limit tracker *)

(** What is left of a quota: a count, or no restriction known. *)
Inductive quota : Type :=
| Unrestricted
| Calls (n : Z).

Record Limit : Type := {
  remaining : quota;
  reset : Z
}.

(** [limit.remaining == 0] *)
Definition exhausted (l : Limit) : bool :=
  match remaining l with
  | Calls n => n =? 0
  | Unrestricted => false
  end.

(** The interface [connect.py] uses of [rate_limit.RateLimit], whose
    source is not part of [connect.py]: the client is written against
    any tracker with these two operations.  [get_limit] is given the
    clock, which a tracker may read for the state of a key it has never
    seen. *)
Class RateLimitOps (T : Type) : Type := {
  get_limit : T -> Z -> URL -> string -> Limit;
  set_limit : T -> URL -> list (string * string) -> string -> T
}.

(** ** The client and its surroundings *)

(** What the client does to the outside, in order of occurrence. *)
Inductive Event : Type :=
| Sleep (seconds : Z)
| Debug (msg : string) (about : URL)
| Send (r : Request).

(** What the transport hands back for one request: a failure before any
    response ([httpx.RequestError]), or a response. *)
Inductive Reply : Type :=
| TransportFailure (msg : string)
| Answer (status : Z) (hdrs : list (string * string)) (payload : string + pyval).

(** How an awaited call ends.  [Awaiting]: the transport has nothing more
    to deliver, the coroutine stays suspended. *)
Inductive outcome (A : Type) : Type :=
| Returned (a : A)
| Raised (e : exn)
| Awaiting.
Arguments Returned {A} a.
Arguments Raised {A} e.
Arguments Awaiting {A}.

(** [template.format(a, b, ...)] for templates whose fields are all [{}]. *)
Fixpoint format (template : string) (args : list string) : raising string :=
  match template with
  | String "{" (String "}" rest) =>
      match args with
      | a :: args' => do r <- format rest args'; inr (a +:+ r)
      | [] => inl IndexError
      end
  | String c rest => do r <- format rest args; inr (String c r)
  | EmptyString => inr EmptyString
  end.

Definition api : string := "https://api.twitter.com/2".
Definition url_followers : string := "/users/{}/followers".
Definition url_follows : string := "/users/{}/following".
Definition url_id : string := "/users/by?usernames={}&{}".
Definition url_lists : string := "/users/{}/owned_lists".
Definition url_list_members : string := "/lists/{}/members".

(** [getattr(self, name)] for the attributes [get_lists_for_id] can ask for. *)
Definition getattr (name : string) : raising string :=
  match dict_lookup
          [("url_followers", PyStr url_followers); ("url_follows", PyStr url_follows);
           ("url_id", PyStr url_id); ("url_lists", PyStr url_lists);
           ("url_list_members", PyStr url_list_members)] name with
  | Some (PyStr s) => inr s
  | _ => inl (AttributeError ("ConnectTwitter object has no attribute " +:+ name))
  end.

(** [process_json]: the [try] block covers the decoding and the token;
    [results['data']] is evaluated after it. *)
Definition process_json (response : Response) : raising (pyval * pyval) :=
  let tried :=
    match body response with
    | inl json_exc =>
        inl (HTTPException (status_code response) (DetailJSONDecodeError json_exc))
    | inr results =>
        match (do meta <- py_get results "meta" (PyDict []);
               py_get meta "next_token" PyNone) with
        | inl (KeyError k) => inl (HTTPException (status_code response) (DetailKeyError k))
        | inl e => inl e
        | inr next_token =>
            inr (if truthy next_token then next_token else PyNone, results)
        end
    end in
  do pr <- tried;
  do data <- py_getitem (snd pr) (PyStr "data");
  inr (fst pr, data).

(** [status_errors] *)
Definition status_errors (response : Response) : raising unit :=
  match raise_for_status response with
  | inr _ => inr tt
  | inl status_exc =>
      let r := exc_response status_exc in
      if status_code r =? 429
      then inl (HTTPException 429
                  (DetailSet (set_literal
                                (PyInt (status_code r))
                                (opt_str (header_get (headers r) "x-rate-limit-remaining")))))
      else inl (HTTPException (status_code r) (DetailPath (path (url (request response)))))
  end.

Section ConnectTwitter.
Context {T : Type} `{RateLimitOps T}.

(** Whether the id cache keeps a call that raised (the memoising
    decorator has had both behaviours). *)
Variable cache_exceptions : bool.

(** The client together with what it reads and writes around it. *)
Record State : Type := {
  rate_limit : T;
  now : Z;
  log : list Event;
  id_cache : list ((string * option string) * raising pyval)
}.

Definition emit (e : Event) (st : State) : State :=
  {| rate_limit := rate_limit st; now := now st;
     log := log st ++ [e]; id_cache := id_cache st |}.

(** [await asyncio.sleep(s)] *)
Definition sleep (s : Z) (st : State) : State :=
  let st' := emit (Sleep s) st in
  {| rate_limit := rate_limit st'; now := now st' + Z.max s 0;
     log := log st'; id_cache := id_cache st' |}.

(** [check_rate_limit] *)
Definition check_rate_limit (request : Request) (st : State) : State :=
  let limit := get_limit (rate_limit st) (now st) (url request) (method request) in
  if exhausted limit then
    let s_time := Z.max (reset limit - now st) 0 + 10 in
    sleep s_time (emit (Debug "Rate limited req: " (url request)) st)
  else st.

(** [set_rate_limit] *)
Definition set_rate_limit (resp : Response) (st : State) : State :=
  {| rate_limit := set_limit (rate_limit st) (url (request resp)) (headers resp)
                             (method (request resp));
     now := now st; log := log st; id_cache := id_cache st |}.

(** The hooks as [__init__] registers them. *)
Definition request_hooks : list (Request -> State -> State) :=
  [check_rate_limit].

Definition response_hooks : list (Response -> State -> raising unit * State) :=
  [fun response st => (status_errors response, st);
   fun resp st => (inr tt, set_rate_limit resp st)].

(** httpx awaits the hooks of an event one after the other; a hook that
    raises ends the request, the hooks after it are not called. *)
Fixpoint run_request_hooks (hooks : list (Request -> State -> State))
    (request : Request) (st : State) : State :=
  match hooks with
  | [] => st
  | hook :: rest => run_request_hooks rest request (hook request st)
  end.

Fixpoint run_response_hooks (hooks : list (Response -> State -> raising unit * State))
    (resp : Response) (st : State) : raising unit * State :=
  match hooks with
  | [] => (inr tt, st)
  | hook :: rest =>
      match hook resp st with
      | (inl e, st') => (inl e, st')
      | (inr _, st') => run_response_hooks rest resp st'
      end
  end.

(** The part of [client.get] before the transport answers. *)
Definition dispatch (request : Request) (st : State) : State :=
  emit (Send request) (run_request_hooks request_hooks request st).

(** The part of [client.get] once the transport has answered. *)
Definition receive (request : Request) (reply : Reply) (st : State)
  : outcome Response * State :=
  match reply with
  | TransportFailure msg => (Raised (RequestError msg), st)
  | Answer status hdrs payload =>
      let resp := {| status_code := status; headers := hdrs;
                     request := request; body := payload |} in
      match run_response_hooks response_hooks resp st with
      | (inl e, st') => (Raised e, st')
      | (inr _, st') => (Returned resp, st')
      end
  end.

(** [await self.client.get(url=..., params=...)] against the replies the
    transport still has. *)
Definition client_get (u : URL) (script : list Reply) (st : State)
  : outcome Response * State * list Reply :=
  let request := {| method := "GET"; url := u |} in
  match script with
  | [] => (Awaiting, dispatch request st, [])
  | reply :: rest =>
      let '(o, st') := receive request reply (dispatch request st) in
      (o, st', rest)
  end.

(** The [while paginate:] loop of [get_data]; each turn consumes one
    reply of the transport. *)
Fixpoint paging (url : string) (paginate : pyval) (results : list pyval)
    (script : list Reply) (st : State) {struct script}
  : outcome pyval * State * list Reply :=
  if truthy paginate then
    let request :=
      {| method := "GET";
         url := {| target := url; params := [("pagination_token", paginate)] |} |} in
    match script with
    | [] => (Awaiting, dispatch request st, [])
    | reply :: rest =>
        match receive request reply (dispatch request st) with
        | (Raised (RequestError req_exc), st') =>
            (Raised (HTTPException 503 (DetailRequestError req_exc)), st', rest)
        | (Raised e, st') => (Raised e, st', rest)
        | (Awaiting, st') => (Awaiting, st', rest)
        | (Returned resp, st') =>
            match process_json resp with
            | inl e => (Raised e, st', rest)
            | inr (paginate', result) =>
                match py_extend results result with
                | inl e => (Raised e, st', rest)
                | inr results' => paging url paginate' results' rest st'
                end
            end
        end
    end
  else (Returned (PyList results), st, script).

(** [get_data] *)
Definition get_data (item_id : Z) (url : string) (script : list Reply) (st : State)
  : outcome pyval * State * list Reply :=
  match client_get {| target := url; params := [] |} script st with
  | (Raised (RequestError req_exc), st', rest) =>
      (Raised (HTTPException 503 (DetailRequestError req_exc)), st', rest)
  | (Raised e, st', rest) => (Raised e, st', rest)
  | (Awaiting, st', rest) => (Awaiting, st', rest)
  | (Returned resp, st', rest) =>
      match process_json resp with
      | inl e => (Raised e, st', rest)
      | inr (paginate, result) =>
          if negb (truthy paginate) then (Returned result, st', rest)
          else
            match py_extend [] result with
            | inl e => (Raised e, st', rest)
            | inr results => paging url paginate results rest st'
            end
      end
  end.

(** [get_lists_for_id] *)
Definition get_lists_for_id (item_id : Z) (operation : string)
    (script : list Reply) (st : State) : outcome pyval * State * list Reply :=
  match (do template <- getattr ("url_" +:+ operation);
         do p <- format template [pretty item_id];
         inr (api +:+ p)) with
  | inl e => (Raised e, st, script)
  | inr url => get_data item_id url script st
  end.

(** The body of [get_id], without its decorator. *)
Definition get_id_body (user fields : string) (script : list Reply) (st : State)
  : outcome pyval * State * list Reply :=
  match format url_id [user; fields] with
  | inl e => (Raised e, st, script)
  | inr p =>
      let url := api +:+ p in
      match client_get {| target := url; params := [] |} script st with
      | (Raised (RequestError req_exc), st', rest) =>
          (Raised (HTTPException 503 (DetailRequestError req_exc)), st', rest)
      | (Raised e, st', rest) => (Raised e, st', rest)
      | (Awaiting, st', rest) => (Awaiting, st', rest)
      | (Returned resp, st', rest) =>
          match (do pr <- process_json resp;
                 do first <- py_getitem (snd pr) (PyInt 0);
                 py_getitem first (PyStr "id")) with
          | inl e => (Raised e, st', rest)
          | inr v => (Returned v, st', rest)
          end
      end
  end.

(** *** The [alru_cache(maxsize=32)] around [get_id] *)

Definition maxsize : nat := 32.

Definition key_eqb (a b : string * option string) : bool :=
  String.eqb (fst a) (fst b) &&
  match snd a, snd b with
  | Some x, Some y => String.eqb x y
  | None, None => true
  | _, _ => false
  end.

Definition cache_find (k : string * option string)
    (c : list ((string * option string) * raising pyval)) : option (raising pyval) :=
  snd <$> List.find (fun e => key_eqb (fst e) k) c.

Definition cache_remove (k : string * option string)
    (c : list ((string * option string) * raising pyval)) :=
  List.filter (fun e => negb (key_eqb (fst e) k)) c.

(** Most recently used first; the least recently used entry leaves
    when there are more than [maxsize]. *)
Definition cache_put (k : string * option string) (v : raising pyval)
    (c : list ((string * option string) * raising pyval)) :=
  firstn maxsize ((k, v) :: cache_remove k c).

Definition with_cache (c : list ((string * option string) * raising pyval))
    (st : State) : State :=
  {| rate_limit := rate_limit st; now := now st; log := log st; id_cache := c |}.

(** [get_id], decorated.  The key is made of the arguments as passed:
    [fields = None] is a call that leaves [fields] to its default. *)
Definition get_id (user : string) (fields : option string)
    (script : list Reply) (st : State) : outcome pyval * State * list Reply :=
  let k := (user, fields) in
  match cache_find k (id_cache st) with
  | Some cached =>
      (match cached with inr v => Returned v | inl e => Raised e end,
       with_cache (cache_put k cached (id_cache st)) st, script)
  | None =>
      match get_id_body user (default "user.fields=id" fields) script st with
      | (Returned v, st', rest) =>
          (Returned v, with_cache (cache_put k (inr v) (id_cache st')) st', rest)
      | (Raised e, st', rest) =>
          (Raised e,
           if cache_exceptions
           then with_cache (cache_put k (inl e) (id_cache st')) st' else st',
           rest)
      | (Awaiting, st', rest) => (Awaiting, st', rest)
      end
  end.

End ConnectTwitter.

(** ** rate_limit.RateLimit *)

Module RateLimit.

Definition is_digit (c : ascii) : bool :=
  let n := nat_of_ascii c in (48 <=? n)%nat && (n <=? 57)%nat.

Fixpoint all_digits (s : string) : bool :=
  match s with
  | EmptyString => true
  | String c rest => is_digit c && all_digits rest
  end.

Fixpoint parse_digits (acc : Z) (s : string) : option Z :=
  match s with
  | EmptyString => Some acc
  | String c rest =>
      if is_digit c
      then parse_digits (10 * acc + (Z.of_nat (nat_of_ascii c) - 48)) rest
      else None
  end.

Definition parse_int (s : string) : option Z :=
  match s with
  | EmptyString => None
  | _ => parse_digits 0 s
  end.

(** The segments of a path, cut at every slash. *)
Fixpoint segments (cur : string) (s : string) : list string :=
  match s with
  | EmptyString => [cur]
  | String c rest =>
      if is_char "/" c then cur :: segments EmptyString rest
      else segments (cur +:+ String c EmptyString) rest
  end.

Definition placeholder (seg : string) : string :=
  match seg with
  | EmptyString => seg
  | _ => if all_digits seg then "{}" else seg
  end.

(** Modelled from the spec: the derivation of a rate-limit key, which
    is in [rate_limit.py], not among the sources.  The spec asks that
    path parameters be normalised out, so that [/users/123/followers]
    and [/users/456/followers] give one key; here every numeric path
    segment becomes [{}] and the query is left out. *)
Definition template (u : URL) : string :=
  String.concat "/" (map placeholder (segments EmptyString (path u))).

(** Modelled from the spec: [RateLimit.get_limit], which is in
    [rate_limit.py], not among the sources.  The state last stored for
    the key of (endpoint template, method), or for a key never observed
    the unrestricted state, whose reset time is now. *)
Definition get_limit (tr : gmap (string * string) Limit) (now : Z) (u : URL)
    (m : string) : Limit :=
  default {| remaining := Unrestricted; reset := now |} (tr !! (template u, m)).

(** Modelled from the spec: [RateLimit.set_limit], which is in
    [rate_limit.py], not among the sources.  The remaining count and the
    reset time (epoch seconds) are read from the response headers and
    overwrite the state of the key.  The spec does not name the reset
    header nor say what a response without these headers does: the
    names are Twitter's, and such a response leaves the state as it
    is. *)
Definition set_limit (tr : gmap (string * string) Limit) (u : URL)
    (hs : list (string * string)) (m : string) : gmap (string * string) Limit :=
  match header_get hs "x-rate-limit-remaining" ≫= parse_int,
        header_get hs "x-rate-limit-reset" ≫= parse_int with
  | Some r, Some t => <[(template u, m) := {| remaining := Calls r; reset := t |}]> tr
  | _, _ => tr
  end.

#[global] Instance ops : RateLimitOps (gmap (string * string) Limit) :=
  Build_RateLimitOps _ get_limit set_limit.

End RateLimit.

(** ** The identity records *)

(** Where Python finds a name used in a function body. *)
Inductive binding : Type := LocalName | GlobalName | BuiltinName | Unbound.

Definition name_in (name : string) (names : list string) : bool :=
  existsb (String.eqb name) names.

(** The names [connect.py] binds at module level. *)
Definition module_names : list string :=
  ["asyncio"; "sys"; "time"; "JSONDecodeError"; "Any"; "httpx"; "HTTPException";
   "Response"; "Request"; "RequestError"; "HTTPStatusError"; "BaseModel";
   "alru_cache"; "start_logger"; "RateLimit";
   "TwitterUser"; "TwitterList"; "ConnectTwitter"].

Definition builtin_names : list string :=
  ["id"; "hash"; "max"; "map"; "list"; "getattr"; "dict"; "int"; "str"].

(** A class body is not a scope of its methods: a bare name in a method
    is a local, a module name or a built-in. *)
Definition resolve (locals : list string) (name : string) : binding :=
  if name_in name locals then LocalName
  else if name_in name module_names then GlobalName
  else if name_in name builtin_names then BuiltinName
  else Unbound.

(** [hash(n)] of an int. *)
Definition hash_int (n : Z) : Z :=
  let h := Z.sgn n * (Z.abs n mod (2 ^ 61 - 1)) in
  if h =? -1 then -2 else h.

Section Hash.
(** The hash of a built-in function object: it comes from the address
    of the object and does not change while the process lives. *)
Variable function_hash : string -> Z.

(** [__hash__] of [TwitterUser] and of [TwitterList]: [hash(id)], where
    [id] is the bare name, see [id_is_the_builtin]. *)
Definition hash_of_id_name : Z := function_hash "id".
End Hash.

Module TwitterUser.
Record t : Type := { username : string; id : Z; name : string }.

Definition __hash__ (function_hash : string -> Z) (self : t) : Z :=
  hash_of_id_name function_hash.
End TwitterUser.

Module TwitterList.
Record t : Type := { name : string; id : Z }.

Definition __hash__ (function_hash : string -> Z) (self : t) : Z :=
  hash_of_id_name function_hash.
End TwitterList.

(** ** The typed operations *)

(** What a typed operation can raise: one of the exceptions above, or
    pydantic's [ValidationError] for a model, with the fields that did
    not validate, in the order the model declares them. *)
Inductive failure : Type :=
| Thrown (e : exn)
| ValidationError (model : string) (fields : list string).

(** How an awaited typed operation ends. *)
Inductive completion (A : Type) : Type :=
| Completed (a : A)
| Failed (f : failure)
| Pending.
Arguments Completed {A} a.
Arguments Failed {A} f.
Arguments Pending {A}.

(** [list(map(f, items))]: [f] is applied from the first item on, and the
    first exception ends the whole conversion. *)
Fixpoint convert_all {A : Type} (f : pyval -> failure + A) (items : list pyval)
  : failure + list A :=
  match items with
  | [] => inr []
  | item :: rest =>
      match f item with
      | inl e => inl e
      | inr a =>
          match convert_all f rest with
          | inl e => inl e
          | inr l => inr (a :: l)
          end
      end
  end.

(** The fields of a list of checks that did not pass. *)
Definition invalid (checks : list (string * bool)) : list string :=
  map fst (filter (fun c => negb (snd c)) checks).

Definition passed {A : Type} (o : option A) : bool :=
  match o with
  | Some _ => true
  | None => false
  end.

Section Models.
(** pydantic's validation of a value for a field annotated [int] and for
    a field annotated [str]: the value the field takes, if any.  What is
    coerced differs between versions of pydantic, so both are left open. *)
Variable validate_int : pyval -> option Z.
Variable validate_str : pyval -> option string.

(** [TwitterUser.from_dict]: the three subscripts are evaluated in the
    order of the keyword arguments, then the model validates its fields. *)
Definition TwitterUser_from_dict (d : pyval) : failure + TwitterUser.t :=
  match (do i <- py_getitem d (PyStr "id");
         do u <- py_getitem d (PyStr "username");
         do n <- py_getitem d (PyStr "name");
         inr (i, u, n)) with
  | inl e => inl (Thrown e)
  | inr (i, u, n) =>
      match validate_str u, validate_int i, validate_str n with
      | Some u', Some i', Some n' =>
          inr {| TwitterUser.username := u'; TwitterUser.id := i'; TwitterUser.name := n' |}
      | ou, oi, on =>
          inl (ValidationError "TwitterUser"
                 (invalid [("username", passed ou); ("id", passed oi); ("name", passed on)]))
      end
  end.

(** [TwitterList.from_dict] *)
Definition TwitterList_from_dict (d : pyval) : failure + TwitterList.t :=
  match (do i <- py_getitem d (PyStr "id");
         do n <- py_getitem d (PyStr "name");
         inr (i, n)) with
  | inl e => inl (Thrown e)
  | inr (i, n) =>
      match validate_str n, validate_int i with
      | Some n', Some i' => inr {| TwitterList.name := n'; TwitterList.id := i' |}
      | on, oi =>
          inl (ValidationError "TwitterList"
                 (invalid [("name", passed on); ("id", passed oi)]))
      end
  end.

Section Operations.
Context {T : Type} `{RateLimitOps T}.

(** [results = await self.get_lists_for_id(...)] followed by
    [return list(map(from_dict, results))], the body the four typed
    operations share. *)
Definition converted {A : Type} (from_dict : pyval -> failure + A)
    (item_id : Z) (operation : string) (script : list Reply) (st : @State T)
  : completion (list A) * @State T * list Reply :=
  match get_lists_for_id item_id operation script st with
  | (Returned results, st', rest) =>
      match py_extend [] results with
      | inl e => (Failed (Thrown e), st', rest)
      | inr items =>
          match convert_all from_dict items with
          | inl f => (Failed f, st', rest)
          | inr l => (Completed l, st', rest)
          end
      end
  | (Raised e, st', rest) => (Failed (Thrown e), st', rest)
  | (Awaiting, st', rest) => (Pending, st', rest)
  end.

(** [get_followers] *)
Definition get_followers (user_id : Z) (script : list Reply) (st : @State T) :=
  converted TwitterUser_from_dict user_id "followers" script st.

(** [get_follows] *)
Definition get_follows (user_id : Z) (script : list Reply) (st : @State T) :=
  converted TwitterUser_from_dict user_id "follows" script st.

(** [get_lists] *)
Definition get_lists (user_id : Z) (script : list Reply) (st : @State T) :=
  converted TwitterList_from_dict user_id "lists" script st.

(** [get_list_members] *)
Definition get_list_members (list_id : Z) (script : list Reply) (st : @State T) :=
  converted TwitterUser_from_dict list_id "list_members" script st.

End Operations.
End Models.

(** ** What is observed of a run *)

(** The requests sent, in order. *)
Fixpoint requests (evs : list Event) : list Request :=
  match evs with
  | [] => []
  | Send r :: rest => r :: requests rest
  | _ :: rest => requests rest
  end.

(** The suspensions of the caller, in order. *)
Fixpoint delays (evs : list Event) : list Z :=
  match evs with
  | [] => []
  | Sleep s :: rest => s :: delays rest
  | _ :: rest => delays rest
  end.

(** [1] for a call left suspended, [0] otherwise. *)
Definition suspended (o : outcome pyval) : nat :=
  match o with
  | Awaiting => 1
  | _ => 0
  end.

Definition GET (target : string) (params : list (string * pyval)) : Request :=
  {| method := "GET"; url := {| target := target; params := params |} |}.

(** The envelope of a page as the API documents it: [data] is an array,
    [meta.next_token] a string that may be missing. *)
Definition envelope (data : list pyval) (token : option string) (v : pyval) : Prop :=
  exists fields,
    v = PyDict fields /\
    dict_lookup fields "data" = Some (PyList data) /\
    match token with
    | Some t =>
        exists meta, dict_lookup fields "meta" = Some (PyDict meta) /\
                     dict_lookup meta "next_token" = Some (PyStr t)
    | None =>
        dict_lookup fields "meta" = None \/
        exists meta, dict_lookup fields "meta" = Some (PyDict meta) /\
                     dict_lookup meta "next_token" = None
    end.

(** A well-formed page: a 2xx response whose body decodes to an envelope. *)
Definition page (data : list pyval) (token : option string) (r : Reply) : Prop :=
  exists status hdrs v,
    r = Answer status hdrs (inr v) /\ 200 <= status <= 299 /\ envelope data token v.

(** ** Sample data and shorthands for the statements below *)

Definition sample_request : Request :=
  GET "https://api.twitter.com/2/users/123/followers" [].

Definition sample_response (status : Z) (hdrs : list (string * string))
    (payload : string + pyval) : Response :=
  {| status_code := status; headers := hdrs; request := sample_request; body := payload |}.

(** The body Twitter sends for an empty result: [{"meta": {"result_count": 0}}]. *)
Definition empty_result : pyval :=
  PyDict [("meta", PyDict [("result_count", PyInt 0)])].

Definition user_one : TwitterUser.t :=
  {| TwitterUser.username := "one"; TwitterUser.id := 1; TwitterUser.name := "One" |}.
Definition user_two : TwitterUser.t :=
  {| TwitterUser.username := "two"; TwitterUser.id := 2; TwitterUser.name := "Two" |}.

(** What [process_json] keeps of a token: a string that is not empty. *)
Definition pagination_of (token : option string) : pyval :=
  match token with
  | Some t => if truthy (PyStr t) then PyStr t else PyNone
  | None => PyNone
  end.

Definition token_request (url : string) (t : string) : Request :=
  GET url [("pagination_token", PyStr t)].

(** A reply that one turn of [get_data] accepts: it is received without
    an exception, decodes, and its data can extend the list. *)
Definition accepted (reply : Reply) : Prop :=
  exists status hdrs v data,
    reply = Answer status hdrs (inr v)
    /\ 200 <= status <= 299
    /\ py_getitem v (PyStr "data") = inr data.

Definition id_request (user fields : string) : Request :=
  GET (api +:+ "/users/by?usernames=" +:+ user +:+ "&" +:+ fields) [].

Definition followers_url : string := "https://api.twitter.com/2/users/123/followers".

Definition followers : URL := {| target := followers_url; params := [] |}.

(** A client that has not seen any response yet, at a given time. *)
Definition fresh (time : Z) : @State (gmap (string * string) Limit) :=
  {| rate_limit := ∅; now := time; log := []; id_cache := [] |}.

Definition quota_headers (remaining reset : string) : list (string * string) :=
  [("x-rate-limit-remaining", remaining); ("x-rate-limit-reset", reset)].

Definition page_reply (data : list pyval) (token : option string) : Reply :=
  Answer 200 (quota_headers "14" "1700000900")
    (inr (PyDict (("data", PyList data) ::
                  match token with
                  | Some t => [("meta", PyDict [("next_token", PyStr t)])]
                  | None => []
                  end))).

(** A client whose tracker holds an exhausted quota for the followers
    endpoint, to be reset at 1700000900. *)
Definition throttled (time : Z) : @State (gmap (string * string) Limit) :=
  {| rate_limit :=
       set_limit ∅ followers (quota_headers "0" "1700000900") "GET";
     now := time; log := []; id_cache := [] |}.


(** One way a model may validate its fields, for the concrete runs: an
    int field takes an int or a string of digits, a str field a string. *)
Definition sample_validate_int (v : pyval) : option Z :=
  match v with
  | PyInt n => Some n
  | PyStr s => RateLimit.parse_int s
  | _ => None
  end.

Definition sample_validate_str (v : pyval) : option string :=
  match v with
  | PyStr s => Some s
  | _ => None
  end.

Definition user_record (id username name : string) : pyval :=
  PyDict [("id", PyStr id); ("name", PyStr name); ("username", PyStr username)].

Definition ann : TwitterUser.t :=
  {| TwitterUser.username := "ann"; TwitterUser.id := 1; TwitterUser.name := "Ann" |}.

Definition bob : TwitterUser.t :=
  {| TwitterUser.username := "bob"; TwitterUser.id := 2; TwitterUser.name := "Bob" |}.

(** Two pages of one user each, the first with the token [a]. *)
Definition two_pages : list Reply :=
  [page_reply [user_record "1" "ann" "Ann"] (Some "a");
   page_reply [user_record "2" "bob" "Bob"] None].

(** ** Properties of the pure parts *)

Lemma is_success_iff (r : Response) :
  is_success r = true <-> 200 <= status_code r <= 299.
Proof. unfold is_success. rewrite andb_true_iff, !Z.leb_le. tauto. Qed.

Lemma set_literal_status_header (o : option string) :
  set_literal (PyInt 429) (opt_str o) = [PyInt 429; opt_str o].
Proof. destruct o; reflexivity. Qed.

(** C4.  A 429 response raises the typed error whose detail is the set of
    the status code and the [x-rate-limit-remaining] header ([None] when
    the header is missing), whatever the body; any other status outside
    2xx raises the typed error whose detail is the path of the request;
    a 2xx status raises nothing. *)
Theorem status_errors_cases (response : Response) :
  (status_code response = 429 ->
     status_errors response =
       inl (HTTPException 429
              (DetailSet [PyInt 429;
                          opt_str (header_get (headers response) "x-rate-limit-remaining")])))
  /\ (is_success response = false -> status_code response <> 429 ->
        status_errors response =
          inl (HTTPException (status_code response)
                 (DetailPath (path (url (request response))))))
  /\ (is_success response = true -> status_errors response = inr tt).
Proof.
  unfold status_errors, raise_for_status. repeat split.
  - intros E. unfold is_success. rewrite E. cbn -[set_literal].
    rewrite E. cbn -[set_literal]. now rewrite set_literal_status_header.
  - intros S N. rewrite S. cbn.
    destruct (Z.eqb_spec (status_code response) 429); [contradiction | reflexivity].
  - intros S. now rewrite S.
Qed.

Lemma status_errors_cases_witness :
  status_errors (sample_response 429 [("x-rate-limit-remaining", "0")] (inl "not json")) =
    inl (HTTPException 429 (DetailSet [PyInt 429; PyStr "0"]))
  /\ status_errors (sample_response 503 [] (inr PyNone)) =
       inl (HTTPException 503 (DetailPath "/2/users/123/followers"))
  /\ status_errors (sample_response 204 [] (inr PyNone)) = inr tt.
Proof.
  split; [| split].
  - apply (proj1 (status_errors_cases
                    (sample_response 429 [("x-rate-limit-remaining", "0")] (inl "not json")))).
    reflexivity.
  - apply (proj1 (proj2 (status_errors_cases (sample_response 503 [] (inr PyNone))))).
    + reflexivity.
    + cbn. lia.
  - apply (proj2 (proj2 (status_errors_cases (sample_response 204 [] (inr PyNone))))).
    reflexivity.
Defined.

(** A body that does not decode gives the typed error, with the status of
    the response and the decoding error as detail. *)
Lemma process_json_decode_error (response : Response) (json_exc : string) :
  body response = inl json_exc ->
  process_json response =
    inl (HTTPException (status_code response) (DetailJSONDecodeError json_exc)).
Proof. intros E. unfold process_json. now rewrite E. Qed.

(** A body that decodes to an object without [data] gives a bare
    [KeyError]: the subscript is evaluated after the [try] block. *)
Lemma process_json_missing_data (response : Response) (fields meta : list (string * pyval)) :
  body response = inr (PyDict fields) ->
  dict_lookup fields "meta" = None \/ dict_lookup fields "meta" = Some (PyDict meta) ->
  dict_lookup fields "data" = None ->
  process_json response = inl (KeyError (PyStr "data")).
Proof.
  intros E M D. unfold process_json. rewrite E. cbn.
  destruct M as [M | M]; rewrite M; cbn; now rewrite D.
Qed.

(** C2.  On a 200 response whose body decodes to an object without
    [data], [process_json] raises [KeyError('data')], which is not the
    typed error. *)
Theorem process_json_missing_data_untyped :
  process_json (sample_response 200 [] (inr empty_result)) = inl (KeyError (PyStr "data"))
  /\ is_typed (KeyError (PyStr "data")) = false.
Proof. split; reflexivity. Qed.

(** Bare [id] in [__hash__] is the built-in function, not the field. *)
Lemma id_is_the_builtin : resolve ["self"] "id" = BuiltinName.
Proof. reflexivity. Qed.

(** The hash of a record is the same for every record. *)
Lemma hash_constant (function_hash : string -> Z) :
  (forall u v : TwitterUser.t,
     TwitterUser.__hash__ function_hash u = TwitterUser.__hash__ function_hash v)
  /\ (forall l m : TwitterList.t,
        TwitterList.__hash__ function_hash l = TwitterList.__hash__ function_hash m).
Proof. split; reflexivity. Qed.

(** C6.  Whatever the hash of the built-in [id] is, the users with ids 1
    and 2 have the same hash, although their ids hash differently: the
    hash of a record is not the hash of its id. *)
Theorem hash_not_keyed_on_id (function_hash : string -> Z) :
  TwitterUser.__hash__ function_hash user_one = TwitterUser.__hash__ function_hash user_two
  /\ hash_int (TwitterUser.id user_one) <> hash_int (TwitterUser.id user_two)
  /\ ~ (TwitterUser.__hash__ function_hash user_one = hash_int (TwitterUser.id user_one)
        /\ TwitterUser.__hash__ function_hash user_two = hash_int (TwitterUser.id user_two)).
Proof.
  split; [reflexivity |]. split.
  - vm_compute. discriminate.
  - intros [A B]. unfold TwitterUser.__hash__ in *. rewrite A in B.
    vm_compute in B. discriminate.
Qed.

(** ** Properties of the request pipeline *)

Lemma requests_app (a b : list Event) : requests (a ++ b) = requests a ++ requests b.
Proof.
  induction a as [| [s | m u | r] a IH]; cbn; [reflexivity | assumption | assumption |].
  now rewrite IH.
Qed.

Lemma delays_app (a b : list Event) : delays (a ++ b) = delays a ++ delays b.
Proof.
  induction a as [| [s | m u | r] a IH]; cbn; [reflexivity | | assumption | assumption].
  now rewrite IH.
Qed.

Section Pipeline.
Context {T : Type} `{RateLimitOps T}.
Implicit Types (st : @State T) (request : Request) (script : list Reply).

Lemma exhausted_iff (l : Limit) : exhausted l = true <-> remaining l = Calls 0.
Proof.
  unfold exhausted. destruct (remaining l) as [| n]; [split; discriminate |].
  rewrite Z.eqb_eq. split; [now intros -> | now intros [= ->]].
Qed.

(** C5.  The request hook suspends the caller exactly when the limit
    tracked for the request has no call remaining, for
    [max (reset - now) 0 + 10] time units; otherwise, and in particular
    when calls remain, it does nothing at all. *)
Theorem check_rate_limit_delay request st :
  let limit := get_limit (rate_limit st) (now st) (url request) (method request) in
  let s_time := Z.max (reset limit - now st) 0 + 10 in
  (remaining limit = Calls 0 ->
     delays (log (check_rate_limit request st)) = delays (log st) ++ [s_time]
     /\ now (check_rate_limit request st) = now st + s_time)
  /\ (remaining limit <> Calls 0 -> check_rate_limit request st = st)
  /\ (forall n, remaining limit = Calls n -> 0 < n -> check_rate_limit request st = st).
Proof.
  intros limit s_time.
  assert (Off : remaining limit <> Calls 0 -> check_rate_limit request st = st).
  { intros N. unfold check_rate_limit. fold limit.
    destruct (exhausted limit) eqn:E; [| reflexivity].
    apply exhausted_iff in E. contradiction. }
  split; [| split].
  - intros Z0. apply exhausted_iff in Z0. unfold check_rate_limit. fold limit.
    rewrite Z0. fold s_time. cbn. rewrite !delays_app. cbn.
    split; [now rewrite app_nil_r | lia].
  - exact Off.
  - intros n E Pos. apply Off. rewrite E. intros [= ->]. lia.
Qed.

Lemma check_rate_limit_keeps request st :
  rate_limit (check_rate_limit request st) = rate_limit st
  /\ id_cache (check_rate_limit request st) = id_cache st
  /\ requests (log (check_rate_limit request st)) = requests (log st).
Proof.
  unfold check_rate_limit. destruct (exhausted _); cbn; [| easy].
  rewrite !requests_app. cbn. now rewrite !app_nil_r.
Qed.

(** Sending adds the request to those sent, after the hook has run. *)
Lemma dispatch_keeps request st :
  rate_limit (dispatch request st) = rate_limit st
  /\ id_cache (dispatch request st) = id_cache st
  /\ requests (log (dispatch request st)) = requests (log st) ++ [request].
Proof.
  unfold dispatch. cbn.
  destruct (check_rate_limit_keeps request st) as (R & C & L).
  rewrite requests_app, L. cbn. easy.
Qed.

(** A response outside 2xx leaves every part of the state as it was:
    [status_errors] raises, and the hook after it is not called. *)
Lemma receive_error_status request status hdrs payload st :
  ~ 200 <= status <= 299 ->
  exists e,
    receive request (Answer status hdrs payload) st = (Raised e, st)
    /\ is_typed e = true.
Proof.
  intros N. unfold receive. cbn.
  unfold status_errors, raise_for_status, is_success. cbn.
  destruct ((200 <=? status) && (status <=? 299)) eqn:S.
  - apply andb_true_iff in S. rewrite !Z.leb_le in S. tauto.
  - cbn. destruct (status =? 429); eexists; split; reflexivity.
Qed.

(** A 2xx response is handed to the caller, and the tracker has taken
    its headers. *)
Lemma receive_success request status hdrs payload st :
  200 <= status <= 299 ->
  receive request (Answer status hdrs payload) st =
    (Returned {| status_code := status; headers := hdrs;
                 request := request; body := payload |},
     set_rate_limit {| status_code := status; headers := hdrs;
                       request := request; body := payload |} st).
Proof.
  intros S. unfold receive. cbn.
  unfold status_errors, raise_for_status, is_success. cbn.
  destruct ((200 <=? status) && (status <=? 299)) eqn:E; [reflexivity |].
  apply andb_false_iff in E. rewrite !Z.leb_gt in E. lia.
Qed.

Lemma receive_keeps_log request reply st o st' :
  receive request reply st = (o, st') ->
  log st' = log st /\ now st' = now st /\ id_cache st' = id_cache st.
Proof.
  unfold receive. destruct reply as [msg | status hdrs payload].
  - now intros [= <- <-].
  - cbn. destruct (status_errors _); now intros [= <- <-].
Qed.

(** C10.  [get_data] does not look at [item_id]: two calls that differ in
    it only have the same outcome, leave the same state and the same
    replies. *)
Theorem get_data_ignores_item_id (item_id item_id' : Z) (url : string) script st :
  get_data item_id url script st = get_data item_id' url script st.
Proof. reflexivity. Qed.

(** *** Pages *)

Lemma process_json_envelope (response : Response) (v : pyval)
    (data : list pyval) (token : option string) :
  body response = inr v ->
  envelope data token v ->
  process_json response = inr (pagination_of token, PyList data).
Proof.
  intros B (fields & -> & D & M). unfold process_json. rewrite B. cbn.
  destruct token as [t |].
  - destruct M as (meta & M & N). rewrite M. cbn. rewrite N. cbn.
    rewrite D. now destruct (negb (t =? "")%string).
  - destruct M as [M | (meta & M & N)]; rewrite M; cbn; [| rewrite N; cbn];
      now rewrite D.
Qed.

Lemma pagination_of_nonempty (t : string) : t <> "" -> pagination_of (Some t) = PyStr t.
Proof.
  intros N. cbn. destruct (String.eqb_spec t ""); [contradiction | reflexivity].
Qed.

(** One well-formed page, received: the response goes through both
    hooks, nothing is sent or logged, and the body decodes. *)
Lemma receive_page request (data : list pyval) (token : option string)
    (reply : Reply) st :
  page data token reply ->
  exists resp st',
    receive request reply st = (Returned resp, st')
    /\ process_json resp = inr (pagination_of token, PyList data)
    /\ log st' = log st.
Proof.
  intros (status & hdrs & v & -> & S & E).
  rewrite (receive_success request status hdrs (inr v) st S).
  eexists _, _. split; [reflexivity |]. split; [| reflexivity].
  now apply (process_json_envelope _ v).
Qed.

(** The loop ends as soon as there is no token. *)
Lemma paging_done (url : string) (paginate : pyval) (results : list pyval)
    script st :
  truthy paginate = false ->
  paging url paginate results script st = (Returned (PyList results), st, script).
Proof. intros F. destruct script; cbn; now rewrite F. Qed.

(** The loop over the pages that follow a token [t]: [later] are the
    pages that carry a token themselves, then comes the page without. *)
Lemma paging_pages (url : string) (later : list (list pyval * string))
    (last_data : list pyval) (last_reply : Reply) (extra : list Reply) :
  Forall (fun p => snd p <> "") later ->
  page last_data None last_reply ->
  forall (replies : list Reply),
  Forall2 (fun r p => page (fst p) (Some (snd p)) r) replies later ->
  forall (t : string) (results : list pyval) st,
  t <> "" ->
  exists st',
    paging url (PyStr t) results (replies ++ last_reply :: extra) st =
      (Returned (PyList (results ++ concat (map fst later) ++ last_data)), st', extra)
    /\ requests (log st') =
         requests (log st) ++ map (token_request url) (t :: map snd later).
Proof.
  intros NE Last replies F.
  induction F as [| reply [data tok] replies later P F IH];
    intros t results st Ht.
  - cbn [app map concat].
    destruct (receive_page (token_request url t) last_data None last_reply
                (dispatch (token_request url t) st) Last) as (resp & st1 & R & J & L).
    cbn [paging]. replace (truthy (PyStr t)) with true
      by (cbn; now destruct (String.eqb_spec t "")).
    unfold token_request, GET in R. rewrite R, J. cbn [pagination_of py_extend].
    rewrite paging_done by reflexivity.
    exists st1. split; [reflexivity |].
    rewrite L. apply (dispatch_keeps (token_request url t) st).
  - cbn [fst snd] in P. inversion NE as [| ? ? Htok NE']; subst. cbn [snd] in Htok.
    destruct (receive_page (token_request url t) data (Some tok) reply
                (dispatch (token_request url t) st) P) as (resp & st1 & R & J & L).
    destruct (IH NE' tok (results ++ data) st1 Htok) as (st2 & E & Q).
    cbn [paging app]. replace (truthy (PyStr t)) with true
      by (cbn; now destruct (String.eqb_spec t "")).
    unfold token_request, GET in R. rewrite R, J.
    rewrite (pagination_of_nonempty tok Htok). cbn [py_extend].
    exists st2. split.
    + rewrite E. cbn [map concat fst]. now rewrite !app_assoc.
    + rewrite Q, L.
      destruct (dispatch_keeps (token_request url t) st) as (_ & _ & ->).
      cbn [map snd]. now rewrite <- app_assoc.
Qed.

(** C3 (amended).  Pages 1..N-1 carry the tokens t1..t(N-1), none of
    them the empty string, and page N carries none: [get_data] returns
    the data of the pages, concatenated in page order, after exactly N
    requests, the first without parameters and request k+1 with
    [pagination_token] set to tk; the replies after page N are left
    untouched. *)
Theorem get_data_concatenates (item_id : Z) (url : string)
    (front : list (list pyval * string)) (last_data : list pyval)
    (replies : list Reply) (last_reply : Reply) (extra : list Reply) st :
  Forall2 (fun r p => page (fst p) (Some (snd p)) r) replies front ->
  Forall (fun p => snd p <> "") front ->
  page last_data None last_reply ->
  exists st',
    get_data item_id url (replies ++ last_reply :: extra) st =
      (Returned (PyList (concat (map fst front) ++ last_data)), st', extra)
    /\ requests (log st') =
         requests (log st) ++ GET url [] :: map (token_request url) (map snd front)
    /\ length (requests (log st')) = (length (requests (log st)) + (length front + 1))%nat.
Proof.
  intros F NE Last.
  assert (Main : exists st',
    get_data item_id url (replies ++ last_reply :: extra) st =
      (Returned (PyList (concat (map fst front) ++ last_data)), st', extra)
    /\ requests (log st') =
         requests (log st) ++ GET url [] :: map (token_request url) (map snd front)).
  { destruct F as [| reply [data tok] replies later P F].
    - destruct (receive_page (GET url []) last_data None last_reply
                  (dispatch (GET url []) st) Last) as (resp & st1 & R & J & L).
      unfold get_data, client_get. cbn [app]. unfold GET in R. rewrite R, J.
      cbn. exists st1. split; [reflexivity |].
      rewrite L. apply (dispatch_keeps (GET url []) st).
    - cbn [fst snd] in P. inversion NE as [| ? ? Htok NE']; subst. cbn [snd] in Htok.
      destruct (receive_page (GET url []) data (Some tok) reply
                  (dispatch (GET url []) st) P) as (resp & st1 & R & J & L).
      destruct (paging_pages url later last_data last_reply extra NE' Last
                  replies F tok data st1 Htok) as (st2 & E & Q).
      unfold get_data, client_get. cbn [app]. unfold GET in R. rewrite R, J.
      rewrite (pagination_of_nonempty tok Htok).
      replace (negb (truthy (PyStr tok))) with false
        by (cbn; now destruct (String.eqb_spec tok "")).
      cbn [py_extend app]. exists st2. split.
      { rewrite E. cbn [map concat fst]. now rewrite <- app_assoc. }
      rewrite Q, L. destruct (dispatch_keeps (GET url []) st) as (_ & _ & ->).
      cbn [map snd]. now rewrite <- app_assoc. }
  destruct Main as (st' & E & Q). exists st'. split; [exact E |]. split; [exact Q |].
  rewrite Q. rewrite length_app. cbn [length]. rewrite !length_map. lia.
Qed.

(** *** When a request fails *)

Lemma process_json_data (response : Response) (paginate result : pyval) :
  process_json response = inr (paginate, result) ->
  exists v, body response = inr v /\ py_getitem v (PyStr "data") = inr result.
Proof.
  unfold process_json. destruct (body response) as [msg | v]; [discriminate |].
  cbn. destruct (py_get v "meta" (PyDict [])) as [e | meta];
    [destruct e; discriminate |].
  cbn. destruct (py_get meta "next_token" PyNone) as [e | tok];
    [destruct e; discriminate |].
  cbn. destruct (py_getitem v (PyStr "data")) as [e | data] eqn:D; [discriminate |].
  cbn. intros [= _ <-]. now exists v.
Qed.

Lemma receive_returned request reply st resp st' :
  receive request reply st = (Returned resp, st') ->
  exists status hdrs payload,
    reply = Answer status hdrs payload /\ 200 <= status <= 299
    /\ body resp = payload.
Proof.
  destruct reply as [msg | status hdrs payload]; [discriminate |].
  intros R. destruct (Z_le_dec 200 status) as [A |];
    [destruct (Z_le_dec status 299) as [B |] |].
  - rewrite receive_success in R by lia. injection R as <- _.
    now exists status, hdrs, payload.
  - destruct (receive_error_status request status hdrs payload st) as (e & E & _);
      [lia | congruence].
  - destruct (receive_error_status request status hdrs payload st) as (e & E & _);
      [lia | congruence].
Qed.

(** Data comes back from the loop only when every reply it consumed was
    accepted: a failure anywhere leaves the caller with an exception (or
    suspended), never with the pages fetched so far. *)
Lemma paging_returned_all_accepted (url : string) script :
  forall (paginate : pyval) (results : list pyval) st (v : pyval) st' rest,
  paging url paginate results script st = (Returned v, st', rest) ->
  exists consumed,
    script = consumed ++ rest
    /\ Forall accepted consumed.
Proof.
  induction script as [| reply script IH]; intros paginate results st v st' rest.
  - cbn. destruct (truthy paginate); [discriminate |].
    intros [= _ _ <-]. exists []. split; [reflexivity | constructor].
  - cbn [paging]. destruct (truthy paginate).
    2:{ intros [= _ _ <-]. exists []. split; [reflexivity | constructor]. }
    destruct (receive _ reply _) as [[resp | e | ] st1] eqn:R.
    + destruct (process_json resp) as [e | [paginate' result]] eqn:J; [discriminate |].
      destruct (py_extend results result) as [e | results'] eqn:X; [discriminate |].
      intros E. destruct (IH _ _ _ _ _ _ E) as (consumed & -> & A).
      exists (reply :: consumed). split; [reflexivity |]. constructor; [| exact A].
      destruct (receive_returned _ _ _ _ _ R) as (status & hdrs & payload & -> & S & B).
      destruct (process_json_data _ _ _ J) as (w & Bw & D).
      subst payload. exists status, hdrs, w, result.
      split; [now rewrite Bw | split; [exact S | exact D]].
    + destruct e; discriminate.
    + discriminate.
Qed.

(** X10.  [get_data] returns data only when every reply it consumed was
    a 2xx response whose body decodes to a value with a [data] entry; any
    other reply on the way leaves the caller without data. *)
Lemma get_data_returned_all_accepted (item_id : Z) (url : string) script st
    (v : pyval) st' rest :
  get_data item_id url script st = (Returned v, st', rest) ->
  exists consumed,
    script = consumed ++ rest /\ Forall accepted consumed.
Proof.
  unfold get_data, client_get. destruct script as [| reply script]; [discriminate |].
  destruct (receive _ reply _) as [[resp | e | ] st1] eqn:R;
    [| destruct e; discriminate | discriminate].
  destruct (process_json resp) as [e | [paginate result]] eqn:J; [discriminate |].
  assert (A : accepted reply).
  { destruct (receive_returned _ _ _ _ _ R) as (status & hdrs & payload & -> & S & B).
    destruct (process_json_data _ _ _ J) as (w & Bw & D).
    subst payload. exists status, hdrs, w, result.
    split; [now rewrite Bw | split; [exact S | exact D]]. }
  destruct (negb (truthy paginate)).
  - intros [= _ _ <-]. exists [reply]. split; [reflexivity | now constructor].
  - destruct (py_extend [] result) as [e | results]; [discriminate |].
    intros E. destruct (paging_returned_all_accepted _ _ _ _ _ _ _ _ E)
      as (consumed & -> & F).
    exists (reply :: consumed). split; [reflexivity | now constructor].
Qed.

(** A transport failure on the first request surfaces as the typed 503. *)
Lemma get_data_transport_failure (item_id : Z) (url msg : string) script st :
  exists st',
    get_data item_id url (TransportFailure msg :: script) st =
      (Raised (HTTPException 503 (DetailRequestError msg)), st', script).
Proof. eexists. reflexivity. Qed.

(** *** The id lookup and its cache *)

Variable cache_exceptions : bool.

Lemma key_eqb_refl (k : string * option string) : key_eqb k k = true.
Proof.
  destruct k as [u [f |]]; unfold key_eqb; cbn; now rewrite ?String.eqb_refl.
Qed.

Lemma cache_find_put (k : string * option string) (v : raising pyval)
    (c : list ((string * option string) * raising pyval)) :
  cache_find k (cache_put k v c) = Some v.
Proof.
  unfold cache_find, cache_put, maxsize. cbn. now rewrite key_eqb_refl.
Qed.


Lemma append_empty (s : string) : s +:+ "" = s.
Proof.
  induction s as [| c s IH]; [reflexivity |].
  change (String c (s +:+ "") = String c s). now rewrite IH.
Qed.

Lemma format_url_id (user fields : string) :
  format url_id [user; fields] =
    inr ("/users/by?usernames=" +:+ user +:+ "&" +:+ fields).
Proof.
  unfold url_id. cbn [format bind_raising]. rewrite append_empty. reflexivity.
Qed.



(** C9.  A lookup that is not cached and is answered by a 2xx response
    whose [data] is the empty array raises [IndexError], which is not one
    of the typed errors. *)
Theorem get_id_empty_data_raises_index_error (user : string) (fields : option string)
    (reply : Reply) (token : option string) script st :
  cache_find (user, fields) (id_cache st) = None ->
  page [] token reply ->
  exists st',
    get_id cache_exceptions user fields (reply :: script) st = (Raised IndexError, st', script)
    /\ is_typed IndexError = false.
Proof.
  intros Miss P. unfold get_id. rewrite Miss.
  unfold get_id_body. rewrite format_url_id. unfold client_get.
  destruct (receive_page (id_request user (default "user.fields=id" fields)) [] token reply
              (dispatch (id_request user (default "user.fields=id" fields)) st) P)
    as (resp & st1 & R & J & _).
  unfold id_request, GET in R. rewrite R, J. cbn.
  eexists. split; reflexivity.
Qed.

End Pipeline.

(** ** The client on the tracker modelled above: concrete runs *)

Lemma page_reply_is_page (data : list pyval) (token : option string) :
  page data token (page_reply data token).
Proof.
  exists 200, (quota_headers "14" "1700000900"). eexists.
  split; [reflexivity |]. split; [lia |].
  eexists. split; [reflexivity |]. split; [reflexivity |].
  destruct token as [t |]; [| now left].
  eexists. split; reflexivity.
Qed.

(** A 2xx response does reach the tracker. *)
Lemma success_is_recorded :
  exists st',
    client_get followers [Answer 200 (quota_headers "0" "1700000900") (inr empty_result)]
               (fresh 1700000000)
    = (Returned {| status_code := 200; headers := quota_headers "0" "1700000900";
                   request := GET followers_url []; body := inr empty_result |}, st', [])
    /\ get_limit (rate_limit st') 1700000000 followers "GET"
       = {| remaining := Calls 0; reset := 1700000900 |}.
Proof. eexists. split; [vm_compute; reflexivity | reflexivity]. Qed.

(** C1.  A 429 response that says no call remains until 1700000900:
    [client.get] raises the quota error, and the tracker is as before, so
    the key still reads as unrestricted and the next request to the same
    endpoint is not delayed, while [set_limit] on these headers would
    have stored the exhausted quota. *)
Theorem quota_exceeded_response_not_recorded :
  exists st',
    client_get followers [Answer 429 (quota_headers "0" "1700000900") (inr empty_result)]
               (fresh 1700000000)
    = (Raised (HTTPException 429 (DetailSet [PyInt 429; PyStr "0"])), st', [])
    /\ rate_limit st' = rate_limit (fresh 1700000000)
    /\ get_limit (rate_limit st') 1700000000 followers "GET"
       = {| remaining := Unrestricted; reset := 1700000000 |}
    /\ delays (log (check_rate_limit (GET followers_url []) st')) = []
    /\ get_limit (set_limit (rate_limit (fresh 1700000000)) followers
                            (quota_headers "0" "1700000900") "GET")
                 1700000000 followers "GET"
       = {| remaining := Calls 0; reset := 1700000900 |}.
Proof.
  eexists. split; [vm_compute; reflexivity |]. repeat split; reflexivity.
Qed.

(** C7.  The second page decodes to an object without [data]: the
    operation ends with [KeyError('data')], which is not one of the typed
    errors. *)
Theorem get_data_later_page_without_data :
  exists st',
    get_data 123 followers_url
      [page_reply [PyInt 1] (Some "a");
       Answer 200 (quota_headers "13" "1700000900") (inr empty_result)]
      (fresh 1700000000)
    = (Raised (KeyError (PyStr "data")), st', [])
    /\ is_typed (KeyError (PyStr "data")) = false.
Proof. eexists. split; [vm_compute; reflexivity | reflexivity]. Qed.

(** C3, as stated, fails.  Page 1 carries the token [""] and page 2
    carries none: [get_data] returns the data of page 1 alone after one
    request and leaves page 2 with the transport, instead of returning
    both pages after two requests. *)
Lemma get_data_empty_token_stops :
  Forall2 (fun r p => page (fst p) (Some (snd p)) r)
          [page_reply [PyInt 1] (Some "")] [([PyInt 1], "")]
  /\ page [PyInt 2] None (page_reply [PyInt 2] None)
  /\ (exists st',
        get_data 123 followers_url
          [page_reply [PyInt 1] (Some ""); page_reply [PyInt 2] None] (fresh 1700000000)
        = (Returned (PyList [PyInt 1]), st', [page_reply [PyInt 2] None])
        /\ requests (log st') = [GET followers_url []])
  /\ ~ (exists st',
          get_data 123 followers_url
            [page_reply [PyInt 1] (Some ""); page_reply [PyInt 2] None] (fresh 1700000000)
          = (Returned (PyList ([PyInt 1] ++ [PyInt 2])), st', [])
          /\ requests (log st') =
               [GET followers_url []; token_request followers_url ""]).
Proof.
  split; [repeat constructor; apply page_reply_is_page |].
  split; [apply page_reply_is_page |]. split.
  - eexists. split; [vm_compute; reflexivity | reflexivity].
  - intros (st' & E & _). vm_compute in E. discriminate E.
Qed.

Lemma get_data_concatenates_witness :
  exists st',
    get_data 123 followers_url
      [page_reply [PyInt 1] (Some "a"); page_reply [PyInt 2] (Some "b");
       page_reply [PyInt 3] None]
      (fresh 1700000000)
    = (Returned (PyList [PyInt 1; PyInt 2; PyInt 3]), st', [])
    /\ requests (log st') =
         [GET followers_url []; token_request followers_url "a";
          token_request followers_url "b"]
    /\ length (requests (log st')) = 3%nat.
Proof.
  apply (get_data_concatenates 123 followers_url
           [([PyInt 1], "a"); ([PyInt 2], "b")] [PyInt 3]
           [page_reply [PyInt 1] (Some "a"); page_reply [PyInt 2] (Some "b")]
           (page_reply [PyInt 3] None) [] (fresh 1700000000)).
  - repeat constructor; apply page_reply_is_page.
  - repeat constructor; discriminate.
  - apply page_reply_is_page.
Defined.

Lemma check_rate_limit_delay_witness :
  (delays (log (check_rate_limit (GET followers_url []) (throttled 1700000000))) = [910]
   /\ now (check_rate_limit (GET followers_url []) (throttled 1700000000)) = 1700000910)
  /\ check_rate_limit (GET followers_url []) (fresh 1700000000) = fresh 1700000000
  /\ check_rate_limit (GET followers_url [])
       {| rate_limit := set_limit ∅ followers (quota_headers "14" "1700000900") "GET";
          now := 1700000000; log := []; id_cache := [] |}
     = {| rate_limit := set_limit ∅ followers (quota_headers "14" "1700000900") "GET";
          now := 1700000000; log := []; id_cache := [] |}.
Proof.
  split; [| split].
  - pose proof (proj1 (check_rate_limit_delay (GET followers_url [])
                          (throttled 1700000000)) eq_refl) as W.
    vm_compute in W. vm_compute. exact W.
  - apply (proj1 (proj2 (check_rate_limit_delay (GET followers_url []) (fresh 1700000000)))).
    vm_compute. discriminate.
  - apply (proj2 (proj2 (check_rate_limit_delay (GET followers_url [])
             {| rate_limit := set_limit ∅ followers (quota_headers "14" "1700000900") "GET";
                now := 1700000000; log := []; id_cache := [] |})) 14).
    + reflexivity.
    + lia.
Defined.


Lemma get_id_empty_data_raises_index_error_witness :
  exists st',
    get_id false "nobody" None [page_reply [] None] (fresh 1700000000)
    = (Raised IndexError, st', [])
    /\ is_typed IndexError = false.
Proof.
  apply (get_id_empty_data_raises_index_error false "nobody" None
           (page_reply [] None) None [] (fresh 1700000000)).
  - reflexivity.
  - apply page_reply_is_page.
Defined.

(** ** More on [process_json] *)

(** X1.  [process_json] returns exactly when the body decodes to an object
    that has [data] and whose [meta], if there is one, is an object; the
    token it returns is [meta.next_token] when that is truthy, and [None]
    otherwise. *)
Theorem process_json_returns_iff (response : Response) (paginate data : pyval) :
  process_json response = inr (paginate, data) <->
  exists fields,
    body response = inr (PyDict fields)
    /\ dict_lookup fields "data" = Some data
    /\ ((dict_lookup fields "meta" = None /\ paginate = PyNone)
        \/ exists meta,
             dict_lookup fields "meta" = Some (PyDict meta)
             /\ paginate = (if truthy (default PyNone (dict_lookup meta "next_token"))
                            then default PyNone (dict_lookup meta "next_token")
                            else PyNone)).
Proof.
  unfold process_json. split.
  - destruct (body response) as [msg | v]; [discriminate |].
    destruct v as [| b | n | s | l | fields]; try discriminate.
    cbn. destruct (dict_lookup fields "meta") as [m |] eqn:M; cbn.
    + destruct m as [| b | n | s | l | meta]; try discriminate. cbn.
      destruct (dict_lookup fields "data") as [d |] eqn:D; [| discriminate].
      cbn. intros [= <- <-]. exists fields. split; [reflexivity |].
      split; [exact D |]. right. now exists meta.
    + destruct (dict_lookup fields "data") as [d |] eqn:D; [| discriminate].
      cbn. intros [= <- <-]. exists fields. split; [reflexivity |].
      split; [exact D |]. now left.
  - intros (fields & B & D & M). rewrite B. cbn.
    destruct M as [[M ->] | (meta & M & ->)]; rewrite M; cbn; now rewrite D.
Qed.

Lemma process_json_returns_iff_witness :
  process_json (sample_response 200 []
                  (inr (PyDict [("data", PyList [PyInt 7]);
                                ("meta", PyDict [("next_token", PyStr "t")])])))
  = inr (PyStr "t", PyList [PyInt 7]).
Proof.
  apply (proj2 (process_json_returns_iff _ (PyStr "t") (PyList [PyInt 7]))).
  eexists. split; [reflexivity |]. split; [reflexivity |].
  right. eexists. split; reflexivity.
Defined.





(** ** More on the request pipeline *)

Section Requests.
Context {T : Type} `{RateLimitOps T}.
Implicit Types (st : @State T) (request : Request) (script : list Reply).

(** X4.  When the tracked limit has no call remaining, the caller is
    resumed ten time units after the later of now and the reset time: the
    wait is never shorter than ten units and never ends before the reset
    time plus ten. *)
Theorem check_rate_limit_resumes_after_reset request st :
  remaining (get_limit (rate_limit st) (now st) (url request) (method request)) = Calls 0 ->
  let reset_at := reset (get_limit (rate_limit st) (now st) (url request) (method request)) in
  now (check_rate_limit request st) = Z.max (now st) reset_at + 10
  /\ reset_at + 10 <= now (check_rate_limit request st)
  /\ now st + 10 <= now (check_rate_limit request st).
Proof.
  intros Z0 reset_at. apply exhausted_iff in Z0.
  unfold check_rate_limit. rewrite Z0. fold reset_at. cbn. lia.
Qed.

(** X5.  A response outside 2xx makes [client.get] raise the typed error
    with the status of that response; the request was sent, the reply is
    consumed, and the tracker is what it was before the request. *)
Theorem client_get_error_status (u : URL) (status : Z) (hdrs : list (string * string))
    (payload : string + pyval) script st :
  ~ 200 <= status <= 299 ->
  exists d st',
    client_get u (Answer status hdrs payload :: script) st
    = (Raised (HTTPException status d), st', script)
    /\ rate_limit st' = rate_limit st
    /\ requests (log st') = requests (log st) ++ [{| method := "GET"; url := u |}].
Proof.
  intros N. unfold client_get, receive. cbn.
  unfold status_errors, raise_for_status, is_success. cbn.
  destruct ((200 <=? status) && (status <=? 299)) eqn:S.
  { apply andb_true_iff in S. rewrite !Z.leb_le in S. tauto. }
  destruct (dispatch_keeps {| method := "GET"; url := u |} st) as (R & _ & L).
  cbn. destruct (Z.eqb_spec status 429) as [-> | Ne]; eexists _, _;
    (split; [reflexivity | split; [exact R | exact L]]).
Qed.

(** X6.  A 2xx response comes back from [client.get] as it is, with the
    request attached, after the tracker has been given its URL, headers
    and method; one request was sent and nothing else changed. *)
Theorem client_get_success (u : URL) (status : Z) (hdrs : list (string * string))
    (payload : string + pyval) script st :
  200 <= status <= 299 ->
  exists st',
    client_get u (Answer status hdrs payload :: script) st
    = (Returned {| status_code := status; headers := hdrs;
                   request := {| method := "GET"; url := u |}; body := payload |},
       st', script)
    /\ rate_limit st' = set_limit (rate_limit st) u hdrs "GET"
    /\ requests (log st') = requests (log st) ++ [{| method := "GET"; url := u |}]
    /\ id_cache st' = id_cache st.
Proof.
  intros S. unfold client_get. rewrite receive_success by exact S.
  eexists. split; [reflexivity |].
  destruct (dispatch_keeps {| method := "GET"; url := u |} st) as (R & C & L).
  unfold set_rate_limit.
  cbn [rate_limit log id_cache request headers url method].
  rewrite R. split; [reflexivity | split; [exact L | exact C]].
Qed.

End Requests.

Lemma check_rate_limit_resumes_after_reset_witness :
  now (check_rate_limit (GET followers_url []) (throttled 1700000950)) = 1700000960
  /\ 1700000900 + 10 <= now (check_rate_limit (GET followers_url []) (throttled 1700000950))
  /\ 1700000950 + 10 <= now (check_rate_limit (GET followers_url []) (throttled 1700000950)).
Proof.
  pose proof (check_rate_limit_resumes_after_reset (GET followers_url [])
                (throttled 1700000950) eq_refl) as W.
  vm_compute in W. vm_compute. exact W.
Defined.

Lemma client_get_error_status_witness :
  exists d st',
    client_get followers [Answer 404 [] (inl "not json")] (fresh 1700000000)
    = (Raised (HTTPException 404 d), st', [])
    /\ rate_limit st' = rate_limit (fresh 1700000000)
    /\ requests (log st') = requests (log (fresh 1700000000)) ++ [GET followers_url []].
Proof.
  apply (client_get_error_status followers 404 [] (inl "not json") [] (fresh 1700000000)).
  lia.
Defined.

Lemma client_get_success_witness :
  exists st',
    client_get followers [Answer 201 (quota_headers "3" "1700000900") (inl "not json")]
               (fresh 1700000000)
    = (Returned {| status_code := 201; headers := quota_headers "3" "1700000900";
                   request := GET followers_url []; body := inl "not json" |},
       st', [])
    /\ rate_limit st' = set_limit (rate_limit (fresh 1700000000)) followers
                                  (quota_headers "3" "1700000900") "GET"
    /\ requests (log st') = requests (log (fresh 1700000000)) ++ [GET followers_url []]
    /\ id_cache st' = id_cache (fresh 1700000000).
Proof.
  apply (client_get_success followers 201 (quota_headers "3" "1700000900")
           (inl "not json") [] (fresh 1700000000)).
  lia.
Defined.

(** ** More on [get_data] *)

Section Pagination.
Context {T : Type} `{RateLimitOps T}.
Implicit Types (st : @State T) (request : Request) (script : list Reply).

Lemma truthy_nonempty (t : string) : t <> "" -> truthy (PyStr t) = true.
Proof. intros N. cbn. now destruct (String.eqb_spec t ""). Qed.

Lemma receive_rejects request (status : Z) (hdrs : list (string * string))
    (payload : string + pyval) st :
  ~ 200 <= status <= 299 ->
  exists d, receive request (Answer status hdrs payload) st
            = (Raised (HTTPException status d), st).
Proof.
  intros N. unfold receive. cbn.
  unfold status_errors, raise_for_status, is_success. cbn.
  destruct ((200 <=? status) && (status <=? 299)) eqn:S.
  { apply andb_true_iff in S. rewrite !Z.leb_le in S. tauto. }
  cbn. destruct (Z.eqb_spec status 429) as [-> | Ne]; eexists; reflexivity.
Qed.

(** The loop over pages that all carry a token: it arrives at the next
    request with the last token, the data gathered, and one request sent
    for every token but the last. *)
Lemma paging_prefix (url : string) (later : list (list pyval * string))
    (replies tail : list Reply) :
  Forall (fun p => snd p <> "") later ->
  Forall2 (fun r p => page (fst p) (Some (snd p)) r) replies later ->
  forall (t : string) (results : list pyval) st,
  t <> "" ->
  exists st1 current,
    current <> ""
    /\ paging url (PyStr t) results (replies ++ tail) st
       = paging url (PyStr current) (results ++ concat (map fst later)) tail st1
    /\ requests (log st1) ++ [token_request url current]
       = requests (log st) ++ map (token_request url) (t :: map snd later).
Proof.
  intros NE F. induction F as [| reply [data tok] replies later P F IH];
    intros t results st Ht.
  - exists st, t. cbn [app map concat]. rewrite app_nil_r. easy.
  - cbn [fst snd] in P. inversion NE as [| ? ? Htok NE']; subst. cbn [snd] in Htok.
    destruct (receive_page (token_request url t) data (Some tok) reply
                (dispatch (token_request url t) st) P) as (resp & st1 & R & J & L).
    destruct (IH NE' tok (results ++ data) st1 Htok) as (st2 & current & Hc & E & Q).
    exists st2, current. split; [exact Hc |]. split.
    + cbn [paging app]. rewrite (truthy_nonempty t Ht).
      unfold token_request, GET in R. rewrite R, J.
      rewrite (pagination_of_nonempty tok Htok). cbn [py_extend].
      rewrite E. cbn [map concat fst]. now rewrite <- app_assoc.
    + rewrite Q, L.
      destruct (dispatch_keeps (token_request url t) st) as (_ & _ & ->).
      cbn [map snd]. now rewrite <- app_assoc.
Qed.

(** The same from the first request on, when there is at least one page. *)
Lemma get_data_prefix (item_id : Z) (url : string) (first : list pyval * string)
    (later : list (list pyval * string)) (replies tail : list Reply) st :
  Forall2 (fun r p => page (fst p) (Some (snd p)) r) replies (first :: later) ->
  Forall (fun p => snd p <> "") (first :: later) ->
  exists st1 current,
    current <> ""
    /\ get_data item_id url (replies ++ tail) st
       = paging url (PyStr current) (concat (map fst (first :: later))) tail st1
    /\ requests (log st1) ++ [token_request url current]
       = requests (log st) ++ GET url [] :: map (token_request url) (map snd (first :: later)).
Proof.
  intros F NE. destruct first as [data tok].
  inversion F as [| reply ? replies' ? P F']; subst.
  inversion NE as [| ? ? Htok NE']; subst. cbn [fst snd] in P, Htok.
  destruct (receive_page (GET url []) data (Some tok) reply
              (dispatch (GET url []) st) P) as (resp & st1 & R & J & L).
  destruct (paging_prefix url later replies' tail NE' F' tok data st1 Htok)
    as (st2 & current & Hc & E & Q).
  exists st2, current. split; [exact Hc |]. split.
  - unfold get_data, client_get. cbn [app]. unfold GET in R. rewrite R, J.
    rewrite (pagination_of_nonempty tok Htok), (truthy_nonempty tok Htok).
    cbn [negb py_extend app]. rewrite E. reflexivity.
  - rewrite Q, L. destruct (dispatch_keeps (GET url []) st) as (_ & _ & ->).
    cbn [map snd]. now rewrite <- app_assoc.
Qed.

(** X7.  A transport failure on any page, the first or one reached
    through tokens, ends [get_data] with the typed 503 error that carries
    the failure; one request was sent per page and for the failed
    attempt, and the later replies are left untouched. *)
Theorem get_data_transport_failure_any_page (item_id : Z) (url msg : string)
    (front : list (list pyval * string)) (replies extra : list Reply) st :
  Forall2 (fun r p => page (fst p) (Some (snd p)) r) replies front ->
  Forall (fun p => snd p <> "") front ->
  exists st',
    get_data item_id url (replies ++ TransportFailure msg :: extra) st
    = (Raised (HTTPException 503 (DetailRequestError msg)), st', extra)
    /\ requests (log st')
       = requests (log st) ++ GET url [] :: map (token_request url) (map snd front).
Proof.
  intros F NE. destruct front as [| first later].
  - inversion F; subst. cbn [app map]. eexists. split; [reflexivity |].
    apply (dispatch_keeps (GET url []) st).
  - destruct (get_data_prefix item_id url first later replies
                (TransportFailure msg :: extra) st F NE) as (st1 & current & Hc & E & Q).
    rewrite E. cbn [paging]. rewrite (truthy_nonempty current Hc). cbn [receive].
    eexists. split; [reflexivity |]. rewrite <- Q.
    apply (dispatch_keeps (token_request url current) st1).
Qed.

(** X8.  A response outside 2xx on any page ends [get_data] with the
    typed error of that status, whatever was fetched before; the later
    replies are left untouched. *)
Theorem get_data_error_status_any_page (item_id : Z) (url : string)
    (status : Z) (hdrs : list (string * string)) (payload : string + pyval)
    (front : list (list pyval * string)) (replies extra : list Reply) st :
  Forall2 (fun r p => page (fst p) (Some (snd p)) r) replies front ->
  Forall (fun p => snd p <> "") front ->
  ~ 200 <= status <= 299 ->
  exists d st',
    get_data item_id url (replies ++ Answer status hdrs payload :: extra) st
    = (Raised (HTTPException status d), st', extra)
    /\ requests (log st')
       = requests (log st) ++ GET url [] :: map (token_request url) (map snd front).
Proof.
  intros F NE Bad. destruct front as [| first later].
  - inversion F; subst. cbn [app map]. unfold get_data, client_get.
    destruct (receive_rejects (GET url []) status hdrs payload
                (dispatch (GET url []) st) Bad) as (d & R).
    unfold GET in R. rewrite R. exists d. eexists. split; [reflexivity |].
    apply (dispatch_keeps (GET url []) st).
  - destruct (get_data_prefix item_id url first later replies
                (Answer status hdrs payload :: extra) st F NE)
      as (st1 & current & Hc & E & Q).
    rewrite E. cbn [paging]. rewrite (truthy_nonempty current Hc).
    destruct (receive_rejects (token_request url current) status hdrs payload
                (dispatch (token_request url current) st1) Bad) as (d & R).
    unfold token_request, GET in R. rewrite R. exists d. eexists.
    split; [reflexivity |]. rewrite <- Q.
    apply (dispatch_keeps (token_request url current) st1).
Qed.

(** X9.  There is no bound on the number of pages: while every reply
    carries a token, [get_data] asks for the next page, and when the
    transport has nothing more it is left suspended, having sent one
    request more than it received pages. *)
Theorem get_data_keeps_asking (item_id : Z) (url : string)
    (front : list (list pyval * string)) (replies : list Reply) st :
  Forall2 (fun r p => page (fst p) (Some (snd p)) r) replies front ->
  Forall (fun p => snd p <> "") front ->
  exists st',
    get_data item_id url replies st = (Awaiting, st', [])
    /\ requests (log st')
       = requests (log st) ++ GET url [] :: map (token_request url) (map snd front)
    /\ length (requests (log st')) = (length (requests (log st)) + S (length replies))%nat.
Proof.
  intros F NE.
  assert (Main : exists st',
    get_data item_id url replies st = (Awaiting, st', [])
    /\ requests (log st')
       = requests (log st) ++ GET url [] :: map (token_request url) (map snd front)).
  { destruct front as [| first later].
    - inversion F; subst. eexists. split; [reflexivity |].
      apply (dispatch_keeps (GET url []) st).
    - destruct (get_data_prefix item_id url first later replies [] st F NE)
        as (st1 & current & Hc & E & Q).
      rewrite app_nil_r in E. rewrite E. cbn [paging].
      rewrite (truthy_nonempty current Hc).
      eexists. split; [reflexivity |]. rewrite <- Q.
      apply (dispatch_keeps (token_request url current) st1). }
  destruct Main as (st' & E & Q). exists st'. split; [exact E |]. split; [exact Q |].
  rewrite Q, length_app. cbn [length]. rewrite !length_map.
  now rewrite (Forall2_length _ _ _ F).
Qed.

End Pagination.

Section Discipline.
Context {T : Type} `{RateLimitOps T}.
Implicit Types (st : @State T) (request : Request) (script : list Reply).

Lemma receive_not_awaiting request (reply : Reply) st st' :
  receive request reply st <> (Awaiting, st').
Proof.
  unfold receive. destruct reply as [msg | status hdrs payload]; [discriminate |].
  destruct (run_response_hooks _ _ _) as [[e | u] st1]; discriminate.
Qed.

Lemma paging_requests (url : string) script :
  forall (paginate : pyval) (results : list pyval) st (o : outcome pyval) st' rest,
  paging url paginate results script st = (o, st', rest) ->
  exists consumed tokens,
    script = consumed ++ rest
    /\ requests (log st')
       = requests (log st) ++ map (fun t => GET url [("pagination_token", t)]) tokens
    /\ Forall (fun t => truthy t = true) tokens
    /\ (length consumed + suspended o = length tokens)%nat.
Proof.
  induction script as [| reply script IH]; intros paginate results st o st' rest.
  - cbn [paging]. destruct (truthy paginate) eqn:Tr; intros [= <- <- <-].
    + exists [], [paginate]. repeat split; [| now repeat constructor].
      apply (dispatch_keeps (GET url [("pagination_token", paginate)]) st).
    + exists [], []. cbn. rewrite app_nil_r. now repeat split.
  - cbn [paging]. destruct (truthy paginate) eqn:Tr.
    2:{ intros [= <- <- <-]. exists [], []. cbn. rewrite app_nil_r. now repeat split. }
    assert (Stop : forall o1 st1,
      log st1 = log (dispatch (GET url [("pagination_token", paginate)]) st) ->
      suspended o1 = 0%nat ->
      (o1, st1, script) = (o, st', rest) ->
      exists consumed tokens,
        reply :: script = consumed ++ rest
        /\ requests (log st')
           = requests (log st) ++ map (fun t => GET url [("pagination_token", t)]) tokens
        /\ Forall (fun t => truthy t = true) tokens
        /\ (length consumed + suspended o = length tokens)%nat).
    { intros o1 st1 L S0 [= <- <- <-]. exists [reply], [paginate].
      split; [reflexivity |]. split; [| split; [now repeat constructor | now rewrite S0]].
      rewrite L. apply (dispatch_keeps (GET url [("pagination_token", paginate)]) st). }
    destruct (receive _ reply _) as [[resp | e | ] st1] eqn:R.
    + destruct (receive_keeps_log _ _ _ _ _ R) as (L & _ & _).
      destruct (process_json resp) as [e | [paginate' result]];
        [now apply Stop |].
      destruct (py_extend results result) as [e | results']; [now apply Stop |].
      intros E. destruct (IH _ _ _ _ _ _ E) as (consumed & tokens & -> & Q & Tk & Len).
      exists (reply :: consumed), (paginate :: tokens).
      split; [reflexivity |]. split; [| split; [now constructor | cbn; lia]].
      rewrite Q, L.
      destruct (dispatch_keeps (GET url [("pagination_token", paginate)]) st)
        as (_ & _ & D).
      unfold GET in *. rewrite D. cbn [map]. now rewrite <- app_assoc.
    + destruct (receive_keeps_log _ _ _ _ _ R) as (L & _ & _).
      destruct e; now apply Stop.
    + now apply receive_not_awaiting in R.
Qed.

(** X11.  However [get_data] ends, it has sent its requests one after
    the other to the URL it was given: the first without parameters, each
    later one with the single parameter [pagination_token] set to a
    truthy token; it has sent one request per reply it consumed, and one
    more when it is left suspended. *)
Theorem get_data_requests_sequential (item_id : Z) (url : string) script st
    (o : outcome pyval) st' rest :
  get_data item_id url script st = (o, st', rest) ->
  exists consumed tokens,
    script = consumed ++ rest
    /\ requests (log st')
       = requests (log st)
         ++ GET url [] :: map (fun t => GET url [("pagination_token", t)]) tokens
    /\ Forall (fun t => truthy t = true) tokens
    /\ (length consumed + suspended o = S (length tokens))%nat.
Proof.
  unfold get_data, client_get. destruct script as [| reply script].
  - intros [= <- <- <-]. exists [], []. repeat split; [| constructor].
    apply (dispatch_keeps (GET url []) st).
  - assert (Stop : forall o1 st1,
      log st1 = log (dispatch (GET url []) st) ->
      suspended o1 = 0%nat ->
      (o1, st1, script) = (o, st', rest) ->
      exists consumed tokens,
        reply :: script = consumed ++ rest
        /\ requests (log st')
           = requests (log st)
             ++ GET url [] :: map (fun t => GET url [("pagination_token", t)]) tokens
        /\ Forall (fun t => truthy t = true) tokens
        /\ (length consumed + suspended o = S (length tokens))%nat).
    { intros o1 st1 L S0 [= <- <- <-]. exists [reply], [].
      split; [reflexivity |]. split; [| split; [constructor | now rewrite S0]].
      rewrite L. apply (dispatch_keeps (GET url []) st). }
    destruct (receive _ reply _) as [[resp | e | ] st1] eqn:R.
    + destruct (receive_keeps_log _ _ _ _ _ R) as (L & _ & _).
      destruct (process_json resp) as [e | [paginate result]]; [now apply Stop |].
      destruct (negb (truthy paginate)); [now apply Stop |].
      destruct (py_extend [] result) as [e | results]; [now apply Stop |].
      intros E. destruct (paging_requests _ _ _ _ _ _ _ _ E)
        as (consumed & tokens & -> & Q & Tk & Len).
      exists (reply :: consumed), tokens.
      split; [reflexivity |]. split; [| split; [exact Tk | cbn; lia]].
      rewrite Q, L. destruct (dispatch_keeps (GET url []) st) as (_ & _ & D).
      unfold GET in *. rewrite D. now rewrite <- app_assoc.
    + destruct (receive_keeps_log _ _ _ _ _ R) as (L & _ & _).
      destruct e; now apply Stop.
    + now apply receive_not_awaiting in R.
Qed.

Lemma dispatch_clock request st :
  now st <= now (dispatch request st).
Proof.
  unfold dispatch. cbn. unfold check_rate_limit.
  destruct (exhausted _); cbn; lia.
Qed.

Lemma paging_keeps (url : string) script :
  forall (paginate : pyval) (results : list pyval) st (o : outcome pyval) st' rest,
  paging url paginate results script st = (o, st', rest) ->
  id_cache st' = id_cache st /\ now st <= now st'.
Proof.
  induction script as [| reply script IH]; intros paginate results st o st' rest.
  - cbn [paging]. destruct (truthy paginate); intros [= <- <- <-].
    + split; [apply (dispatch_keeps _ st) | apply dispatch_clock].
    + split; [reflexivity | lia].
  - cbn [paging]. destruct (truthy paginate).
    2:{ intros [= <- <- <-]. split; [reflexivity | lia]. }
    pose proof (dispatch_clock (GET url [("pagination_token", paginate)]) st) as Clk.
    destruct (dispatch_keeps (GET url [("pagination_token", paginate)]) st) as (_ & C & _).
    unfold GET in Clk, C.
    destruct (receive _ reply _) as [[resp | e | ] st1] eqn:R;
      destruct (receive_keeps_log _ _ _ _ _ R) as (_ & N & C1).
    + destruct (process_json resp) as [e | [paginate' result]].
      { intros [= <- <- <-]. split; [congruence | lia]. }
      destruct (py_extend results result) as [e | results'].
      { intros [= <- <- <-]. split; [congruence | lia]. }
      intros E. destruct (IH _ _ _ _ _ _ E) as (C2 & N2).
      split; [congruence | lia].
    + destruct e; intros [= <- <- <-]; (split; [congruence | lia]).
    + intros [= <- <- <-]. split; [congruence | lia].
Qed.

(** X12.  [get_data] never touches the id cache, and the clock never goes
    back during it: it only moves by the waits of the request hook. *)
Theorem get_data_keeps_cache_and_clock (item_id : Z) (url : string) script st
    (o : outcome pyval) st' rest :
  get_data item_id url script st = (o, st', rest) ->
  id_cache st' = id_cache st /\ now st <= now st'.
Proof.
  unfold get_data, client_get. destruct script as [| reply script].
  - intros [= <- <- <-]. split; [apply (dispatch_keeps _ st) | apply dispatch_clock].
  - pose proof (dispatch_clock (GET url []) st) as Clk.
    destruct (dispatch_keeps (GET url []) st) as (_ & C & _).
    unfold GET in Clk, C.
    destruct (receive _ reply _) as [[resp | e | ] st1] eqn:R;
      destruct (receive_keeps_log _ _ _ _ _ R) as (_ & N & C1).
    + destruct (process_json resp) as [e | [paginate result]].
      { intros [= <- <- <-]. split; [congruence | lia]. }
      destruct (negb (truthy paginate)).
      { intros [= <- <- <-]. split; [congruence | lia]. }
      destruct (py_extend [] result) as [e | results].
      { intros [= <- <- <-]. split; [congruence | lia]. }
      intros E. destruct (paging_keeps _ _ _ _ _ _ _ _ E) as (C2 & N2).
      split; [congruence | lia].
    + destruct e; intros [= <- <- <-]; (split; [congruence | lia]).
    + intros [= <- <- <-]. split; [congruence | lia].
Qed.

(** X13.  A first page without a token is answered with its [data] as it
    is, whatever kind of value that is: no second request, no check that
    it is an array. *)
Theorem get_data_single_page_verbatim (item_id : Z) (url : string) (status : Z)
    (hdrs : list (string * string)) (fields : list (string * pyval)) (data : pyval)
    script st :
  200 <= status <= 299 ->
  dict_lookup fields "data" = Some data ->
  dict_lookup fields "meta" = None ->
  exists st',
    get_data item_id url (Answer status hdrs (inr (PyDict fields)) :: script) st
    = (Returned data, st', script)
    /\ requests (log st') = requests (log st) ++ [GET url []].
Proof.
  intros S D M. unfold get_data, client_get.
  rewrite receive_success by exact S.
  assert (J : process_json
                {| status_code := status; headers := hdrs;
                   request := {| method := "GET"; url := {| target := url; params := [] |} |};
                   body := inr (PyDict fields) |} = inr (PyNone, data)).
  { unfold process_json. cbn. rewrite M. cbn. now rewrite D. }
  rewrite J. cbn. eexists. split; [reflexivity |].
  apply (dispatch_keeps (GET url []) st).
Qed.

End Discipline.

(** ** More on the operations *)

Lemma url_attribute (operation : string) :
  "url_" +:+ operation = String "u" (String "r" (String "l" (String "_" operation))).
Proof. reflexivity. Qed.

Lemma eqb_same_head (c : ascii) (a b : string) :
  String.eqb (String c a) (String c b) = String.eqb a b.
Proof. cbn. now rewrite Ascii.eqb_refl. Qed.

Lemma seq_item_first (x : pyval) (l : list pyval) : seq_item (x :: l) 0 = inr x.
Proof.
  unfold seq_item.
  assert (P : (0 <? Z.of_nat (length (x :: l))) = true)
    by (apply Z.ltb_lt; cbn [length]; lia).
  change (0 <? 0) with false. cbv iota. change (0 <=? 0) with true.
  rewrite P. reflexivity.
Qed.

Section Endpoints.
Context {T : Type} `{RateLimitOps T}.
Variable cache_exceptions : bool.
Implicit Types (st : @State T) (script : list Reply).

(** X14.  The four list operations go to [get_data] with the URL of
    their endpoint, the id written in decimal in the place of [{}]. *)
Theorem get_lists_for_id_urls (item_id : Z) script st :
  get_lists_for_id item_id "followers" script st
  = get_data item_id (api +:+ "/users/" +:+ pretty item_id +:+ "/followers") script st
  /\ get_lists_for_id item_id "follows" script st
     = get_data item_id (api +:+ "/users/" +:+ pretty item_id +:+ "/following") script st
  /\ get_lists_for_id item_id "lists" script st
     = get_data item_id (api +:+ "/users/" +:+ pretty item_id +:+ "/owned_lists") script st
  /\ get_lists_for_id item_id "list_members" script st
     = get_data item_id (api +:+ "/lists/" +:+ pretty item_id +:+ "/members") script st.
Proof. repeat split; reflexivity. Qed.

(** X15.  Any other operation raises before anything is sent: [id],
    whose template has two fields for the one argument, raises
    [IndexError]; a name without a [url_] attribute raises
    [AttributeError].  State and replies are left as they were. *)
Theorem get_lists_for_id_other_operation (item_id : Z) (operation : string) script st :
  ~ In operation ["followers"; "follows"; "lists"; "list_members"] ->
  exists e,
    get_lists_for_id item_id operation script st = (Raised e, st, script)
    /\ is_typed e = false
    /\ (operation = "id" -> e = IndexError)
    /\ (operation <> "id" -> exists what, e = AttributeError what).
Proof.
  intros N. unfold get_lists_for_id, getattr. rewrite url_attribute.
  cbn [dict_lookup]. rewrite !eqb_same_head.
  destruct (String.eqb_spec "followers" operation) as [<- | N1].
  { exfalso. apply N. cbn. tauto. }
  destruct (String.eqb_spec "follows" operation) as [<- | N2].
  { exfalso. apply N. cbn. tauto. }
  destruct (String.eqb_spec "id" operation) as [<- | N3].
  { exists IndexError. split; [reflexivity |]. split; [reflexivity |].
    split; [reflexivity | congruence]. }
  destruct (String.eqb_spec "lists" operation) as [<- | N4].
  { exfalso. apply N. cbn. tauto. }
  destruct (String.eqb_spec "list_members" operation) as [<- | N5].
  { exfalso. apply N. cbn. tauto. }
  eexists. split; [reflexivity |]. split; [reflexivity |].
  split; [congruence | eexists; reflexivity].
Qed.

(** X16.  A lookup that is not cached and is answered by a 2xx response
    whose [data] starts with an object that has an [id] returns that
    [id] as it is, ignoring the other records and the token; it has sent
    one request, to [/users/by] with the user name and the fields, and
    the id is now cached under the arguments of the call. *)
Theorem get_id_returns_first_id (user : string) (fields : option string)
    (reply : Reply) (first : list (string * pyval)) (others : list pyval)
    (token : option string) (v : pyval) script st :
  cache_find (user, fields) (id_cache st) = None ->
  page (PyDict first :: others) token reply ->
  dict_lookup first "id" = Some v ->
  exists st',
    get_id cache_exceptions user fields (reply :: script) st = (Returned v, st', script)
    /\ requests (log st')
       = requests (log st) ++ [id_request user (default "user.fields=id" fields)]
    /\ cache_find (user, fields) (id_cache st') = Some (inr v).
Proof.
  intros Miss P Id. unfold get_id. rewrite Miss.
  unfold get_id_body. rewrite format_url_id. unfold client_get.
  destruct (receive_page (id_request user (default "user.fields=id" fields))
              (PyDict first :: others) token reply
              (dispatch (id_request user (default "user.fields=id" fields)) st) P)
    as (resp & st1 & R & J & L).
  unfold id_request, GET in R. rewrite R, J.
  cbn [bind_raising snd py_getitem]. rewrite seq_item_first.
  cbn [bind_raising py_getitem]. rewrite Id.
  eexists. split; [reflexivity |]. split.
  - cbn [log with_cache]. rewrite L.
    apply (dispatch_keeps (id_request user (default "user.fields=id" fields)) st).
  - cbn [id_cache with_cache]. apply cache_find_put.
Qed.


(** X18.  A lookup that is not cached and meets a transport failure
    raises the typed 503 error that carries the failure, after one
    request; whether the failure is then cached is the decorator's
    choice. *)
Theorem get_id_transport_failure (user : string) (fields : option string)
    (msg : string) script st :
  cache_find (user, fields) (id_cache st) = None ->
  exists st',
    get_id cache_exceptions user fields (TransportFailure msg :: script) st
    = (Raised (HTTPException 503 (DetailRequestError msg)), st', script)
    /\ requests (log st')
       = requests (log st) ++ [id_request user (default "user.fields=id" fields)]
    /\ cache_find (user, fields) (id_cache st')
       = if cache_exceptions
         then Some (inl (HTTPException 503 (DetailRequestError msg)))
         else None.
Proof.
  intros Miss. unfold get_id. rewrite Miss.
  unfold get_id_body. rewrite format_url_id. unfold client_get. cbn [receive].
  eexists. split; [reflexivity |].
  destruct (dispatch_keeps (id_request user (default "user.fields=id" fields)) st)
    as (_ & C & L).
  destruct cache_exceptions.
  - cbn [log id_cache with_cache]. split; [exact L | apply cache_find_put].
  - split; [exact L |]. unfold id_request, GET in C. now rewrite C.
Qed.


End Endpoints.

(** ** The typed operations *)

Section Conversion.
Variable validate_int : pyval -> option Z.
Variable validate_str : pyval -> option string.

(** X20.  [TwitterUser.from_dict] returns a user exactly for an object
    that has [id], [username] and [name] with values that validate, and
    the user then holds the validated values. *)
Theorem TwitterUser_from_dict_returns_iff (d : pyval) (u : TwitterUser.t) :
  TwitterUser_from_dict validate_int validate_str d = inr u <->
  exists fields i un n,
    d = PyDict fields
    /\ dict_lookup fields "id" = Some i
    /\ dict_lookup fields "username" = Some un
    /\ dict_lookup fields "name" = Some n
    /\ validate_int i = Some (TwitterUser.id u)
    /\ validate_str un = Some (TwitterUser.username u)
    /\ validate_str n = Some (TwitterUser.name u).
Proof.
  unfold TwitterUser_from_dict. split.
  - destruct d as [| b | k | s | l | fields]; try discriminate.
    cbn. destruct (dict_lookup fields "id") as [i |] eqn:I; [| discriminate].
    cbn. destruct (dict_lookup fields "username") as [un |] eqn:U; [| discriminate].
    cbn. destruct (dict_lookup fields "name") as [n |] eqn:N; [| discriminate].
    cbn. destruct (validate_str un) as [un' |] eqn:VU;
      destruct (validate_int i) as [i' |] eqn:VI;
      destruct (validate_str n) as [n' |] eqn:VN; try discriminate.
    intros [= <-]. exists fields, i, un, n. cbn. easy.
  - intros (fields & i & un & n & -> & I & U & N & VI & VU & VN).
    cbn. rewrite I. cbn. rewrite U. cbn. rewrite N. cbn.
    rewrite VU, VI, VN. now destruct u.
Qed.

(** X21.  [TwitterList.from_dict] returns a list exactly for an object
    that has [id] and [name] with values that validate; other fields,
    such as [username], are not looked at. *)
Theorem TwitterList_from_dict_returns_iff (d : pyval) (l : TwitterList.t) :
  TwitterList_from_dict validate_int validate_str d = inr l <->
  exists fields i n,
    d = PyDict fields
    /\ dict_lookup fields "id" = Some i
    /\ dict_lookup fields "name" = Some n
    /\ validate_int i = Some (TwitterList.id l)
    /\ validate_str n = Some (TwitterList.name l).
Proof.
  unfold TwitterList_from_dict. split.
  - destruct d as [| b | k | s | items | fields]; try discriminate.
    cbn. destruct (dict_lookup fields "id") as [i |] eqn:I; [| discriminate].
    cbn. destruct (dict_lookup fields "name") as [n |] eqn:N; [| discriminate].
    cbn. destruct (validate_str n) as [n' |] eqn:VN;
      destruct (validate_int i) as [i' |] eqn:VI; try discriminate.
    intros [= <-]. exists fields, i, n. cbn. easy.
  - intros (fields & i & n & -> & I & N & VI & VN).
    cbn. rewrite I. cbn. rewrite N. cbn. rewrite VN, VI. now destruct l.
Qed.

(** X22.  A record that lacks one of the three keys makes
    [TwitterUser.from_dict] raise [KeyError] for the first key missing in
    the order [id], [username], [name], before any validation: the values
    of the keys that are there play no part. *)
Theorem TwitterUser_from_dict_missing_key (fields : list (string * pyval)) :
  (dict_lookup fields "id" = None ->
     TwitterUser_from_dict validate_int validate_str (PyDict fields)
     = inl (Thrown (KeyError (PyStr "id"))))
  /\ (dict_lookup fields "id" <> None -> dict_lookup fields "username" = None ->
        TwitterUser_from_dict validate_int validate_str (PyDict fields)
        = inl (Thrown (KeyError (PyStr "username"))))
  /\ (dict_lookup fields "id" <> None -> dict_lookup fields "username" <> None ->
        dict_lookup fields "name" = None ->
        TwitterUser_from_dict validate_int validate_str (PyDict fields)
        = inl (Thrown (KeyError (PyStr "name")))).
Proof.
  unfold TwitterUser_from_dict. cbn. repeat split.
  - now intros ->.
  - intros I ->. now destruct (dict_lookup fields "id").
  - intros I U ->. destruct (dict_lookup fields "id"); [| contradiction].
    cbn. now destruct (dict_lookup fields "username").
Qed.

Lemma convert_all_in_order {A : Type} (f : pyval -> failure + A)
    (items : list pyval) (l : list A) :
  convert_all f items = inr l <-> Forall2 (fun v a => f v = inr a) items l.
Proof.
  revert l. induction items as [| item items IH]; intros l; cbn.
  - split; [now intros [= <-]; constructor | now inversion 1].
  - destruct (f item) as [e | a] eqn:F.
    + split; [discriminate | inversion 1; congruence].
    + destruct (convert_all f items) as [e | l'] eqn:C.
      * split; [discriminate |]. inversion 1 as [| ? b ? l2 Fb F2]; subst.
        apply IH in F2. discriminate.
      * split.
        -- intros [= <-]. constructor; [exact F | now apply IH].
        -- inversion 1 as [| ? b ? l2 Fb F2]; subst. apply IH in F2.
           congruence.
Qed.

Lemma convert_all_first_failure {A : Type} (f : pyval -> failure + A)
    (good : list pyval) (l : list A) (bad : pyval) (more : list pyval) (e : failure) :
  Forall2 (fun v a => f v = inr a) good l ->
  f bad = inl e ->
  convert_all f (good ++ bad :: more) = inl e.
Proof.
  intros G B. induction G as [| v a good l F G IH]; cbn.
  - now rewrite B.
  - now rewrite F, IH.
Qed.

Section Typed.
Context {T : Type} `{RateLimitOps T}.
Implicit Types (st : @State T) (script : list Reply).

(** X23.  When the pages of a user operation give an array of records
    that all convert, [get_followers], [get_follows] and
    [get_list_members] return the users of these records in the order of
    the records, leaving state and replies as the untyped call left
    them. *)
Theorem user_operations_in_order (item_id : Z) (items : list pyval)
    (users : list TwitterUser.t) script st st' rest :
  Forall2 (fun v u => TwitterUser_from_dict validate_int validate_str v = inr u)
          items users ->
  (get_lists_for_id item_id "followers" script st = (Returned (PyList items), st', rest) ->
     get_followers validate_int validate_str item_id script st
     = (Completed users, st', rest))
  /\ (get_lists_for_id item_id "follows" script st = (Returned (PyList items), st', rest) ->
        get_follows validate_int validate_str item_id script st
        = (Completed users, st', rest))
  /\ (get_lists_for_id item_id "list_members" script st
        = (Returned (PyList items), st', rest) ->
        get_list_members validate_int validate_str item_id script st
        = (Completed users, st', rest)).
Proof.
  intros F. apply convert_all_in_order in F.
  unfold get_followers, get_follows, get_list_members, converted.
  repeat split; intros ->; cbn [py_extend app]; now rewrite F.
Qed.

(** X24.  The same for [get_lists] and the lists of the records. *)
Theorem get_lists_in_order (user_id : Z) (items : list pyval)
    (lists : list TwitterList.t) script st st' rest :
  Forall2 (fun v l => TwitterList_from_dict validate_int validate_str v = inr l)
          items lists ->
  get_lists_for_id user_id "lists" script st = (Returned (PyList items), st', rest) ->
  get_lists validate_int validate_str user_id script st = (Completed lists, st', rest).
Proof.
  intros F E. apply convert_all_in_order in F.
  unfold get_lists, converted. rewrite E. cbn [py_extend app]. now rewrite F.
Qed.

(** X25.  One record that does not convert fails the whole operation
    with the exception of that record, the first such in the order of the
    records: the users converted before it are not returned, the records
    after it are not looked at. *)
Theorem get_followers_first_bad_record (user_id : Z) (good : list pyval)
    (users : list TwitterUser.t) (bad : pyval) (more : list pyval) (f : failure)
    script st st' rest :
  Forall2 (fun v u => TwitterUser_from_dict validate_int validate_str v = inr u)
          good users ->
  TwitterUser_from_dict validate_int validate_str bad = inl f ->
  get_lists_for_id user_id "followers" script st
  = (Returned (PyList (good ++ bad :: more)), st', rest) ->
  get_followers validate_int validate_str user_id script st = (Failed f, st', rest).
Proof.
  intros G B E. unfold get_followers, converted. rewrite E. cbn [py_extend app].
  now rewrite (convert_all_first_failure _ good users bad more f G B).
Qed.

(** X26.  When the untyped call returns an object instead of an array (a
    single page whose [data] is an object), the conversion runs over its
    keys, and the first key, a string, fails with [TypeError]. *)
Theorem get_followers_object_data (user_id : Z) (k : string) (v : pyval)
    (more : list (string * pyval)) script st st' rest :
  get_lists_for_id user_id "followers" script st
  = (Returned (PyDict ((k, v) :: more)), st', rest) ->
  exists what,
    get_followers validate_int validate_str user_id script st
    = (Failed (Thrown (TypeError what)), st', rest).
Proof.
  intros E. unfold get_followers, converted. rewrite E. eexists. reflexivity.
Qed.

End Typed.
End Conversion.

(** ** Concrete runs of the properties above *)

Lemma triple_eta {A B C : Type} (p : A * B * C) : p = (fst (fst p), snd (fst p), snd p).
Proof. now destruct p as [[a b] c]. Qed.

Lemma get_data_transport_failure_any_page_witness :
  exists st',
    get_data 123 followers_url
      ([page_reply [PyInt 1] (Some "a")] ++ TransportFailure "timed out" :: [])
      (fresh 1700000000)
    = (Raised (HTTPException 503 (DetailRequestError "timed out")), st', [])
    /\ requests (log st')
       = requests (log (fresh 1700000000))
         ++ GET followers_url [] :: map (token_request followers_url) (map snd [([PyInt 1], "a")]).
Proof.
  apply (get_data_transport_failure_any_page 123 followers_url "timed out"
           [([PyInt 1], "a")] [page_reply [PyInt 1] (Some "a")] [] (fresh 1700000000)).
  - repeat constructor; apply page_reply_is_page.
  - repeat constructor; discriminate.
Defined.

Lemma get_data_error_status_any_page_witness :
  exists d st',
    get_data 123 followers_url
      ([page_reply [PyInt 1] (Some "a")] ++ Answer 500 [] (inl "not json") :: [])
      (fresh 1700000000)
    = (Raised (HTTPException 500 d), st', [])
    /\ requests (log st')
       = requests (log (fresh 1700000000))
         ++ GET followers_url [] :: map (token_request followers_url) (map snd [([PyInt 1], "a")]).
Proof.
  apply (get_data_error_status_any_page 123 followers_url 500 [] (inl "not json")
           [([PyInt 1], "a")] [page_reply [PyInt 1] (Some "a")] [] (fresh 1700000000)).
  - repeat constructor; apply page_reply_is_page.
  - repeat constructor; discriminate.
  - lia.
Defined.

Lemma get_data_keeps_asking_witness :
  exists st',
    get_data 123 followers_url
      [page_reply [PyInt 1] (Some "a"); page_reply [PyInt 2] (Some "b")] (fresh 1700000000)
    = (Awaiting, st', [])
    /\ requests (log st')
       = requests (log (fresh 1700000000))
         ++ GET followers_url []
            :: map (token_request followers_url) (map snd [([PyInt 1], "a"); ([PyInt 2], "b")])
    /\ length (requests (log st'))
       = (length (requests (log (fresh 1700000000))) + 3)%nat.
Proof.
  apply (get_data_keeps_asking 123 followers_url [([PyInt 1], "a"); ([PyInt 2], "b")]
           [page_reply [PyInt 1] (Some "a"); page_reply [PyInt 2] (Some "b")]
           (fresh 1700000000)).
  - repeat constructor; apply page_reply_is_page.
  - repeat constructor; discriminate.
Defined.

Lemma get_data_returned_all_accepted_witness :
  exists consumed,
    two_pages ++ [TransportFailure "unused"]
    = consumed ++ snd (get_data 123 followers_url (two_pages ++ [TransportFailure "unused"])
                         (fresh 1700000000))
    /\ Forall accepted consumed.
Proof.
  apply (get_data_returned_all_accepted 123 followers_url
           (two_pages ++ [TransportFailure "unused"]) (fresh 1700000000)
           (PyList [user_record "1" "ann" "Ann"; user_record "2" "bob" "Bob"])
           (snd (fst (get_data 123 followers_url (two_pages ++ [TransportFailure "unused"])
                        (fresh 1700000000))))).
  vm_compute. reflexivity.
Defined.

Lemma get_data_requests_sequential_witness :
  exists consumed tokens,
    two_pages = consumed ++ snd (get_data 123 followers_url two_pages (fresh 1700000000))
    /\ requests (log (snd (fst (get_data 123 followers_url two_pages (fresh 1700000000)))))
       = requests (log (fresh 1700000000))
         ++ GET followers_url []
            :: map (fun t => GET followers_url [("pagination_token", t)]) tokens
    /\ Forall (fun t => truthy t = true) tokens
    /\ (length consumed
        + suspended (fst (fst (get_data 123 followers_url two_pages (fresh 1700000000))))
        = S (length tokens))%nat.
Proof.
  apply (get_data_requests_sequential 123 followers_url two_pages (fresh 1700000000)).
  apply triple_eta.
Defined.

Lemma get_data_keeps_cache_and_clock_witness :
  id_cache (snd (fst (get_data 123 followers_url two_pages (throttled 1700000000))))
  = id_cache (throttled 1700000000)
  /\ now (throttled 1700000000)
     <= now (snd (fst (get_data 123 followers_url two_pages (throttled 1700000000)))).
Proof.
  apply (get_data_keeps_cache_and_clock 123 followers_url two_pages (throttled 1700000000)
           (fst (fst (get_data 123 followers_url two_pages (throttled 1700000000))))
           _
           (snd (get_data 123 followers_url two_pages (throttled 1700000000)))).
  apply triple_eta.
Defined.

Lemma get_data_single_page_verbatim_witness :
  exists st',
    get_data 123 followers_url
      [Answer 200 [] (inr (PyDict [("data", user_record "1" "ann" "Ann")]))]
      (fresh 1700000000)
    = (Returned (user_record "1" "ann" "Ann"), st', [])
    /\ requests (log st') = requests (log (fresh 1700000000)) ++ [GET followers_url []].
Proof.
  apply (get_data_single_page_verbatim 123 followers_url 200 []
           [("data", user_record "1" "ann" "Ann")] (user_record "1" "ann" "Ann") []
           (fresh 1700000000)).
  - lia.
  - reflexivity.
  - reflexivity.
Defined.

Lemma get_lists_for_id_other_operation_witness :
  exists e,
    get_lists_for_id 123 "id" two_pages (fresh 1700000000)
    = (Raised e, fresh 1700000000, two_pages)
    /\ is_typed e = false
    /\ ("id" = "id" -> e = IndexError)
    /\ ("id" <> "id" -> exists what, e = AttributeError what).
Proof.
  apply (get_lists_for_id_other_operation 123 "id" two_pages (fresh 1700000000)).
  cbn. intros [E | [E | [E | [E | []]]]]; discriminate E.
Defined.

Lemma get_id_returns_first_id_witness :
  exists st',
    get_id false "ann" None
      [page_reply [PyDict [("id", PyStr "1")]; PyDict [("id", PyStr "2")]] (Some "t")]
      (fresh 1700000000)
    = (Returned (PyStr "1"), st', [])
    /\ requests (log st')
       = requests (log (fresh 1700000000)) ++ [id_request "ann" (default "user.fields=id" None)]
    /\ cache_find ("ann", None) (id_cache st') = Some (inr (PyStr "1")).
Proof.
  apply (get_id_returns_first_id false "ann" None
           (page_reply [PyDict [("id", PyStr "1")]; PyDict [("id", PyStr "2")]] (Some "t"))
           [("id", PyStr "1")] [PyDict [("id", PyStr "2")]] (Some "t") (PyStr "1") []
           (fresh 1700000000)).
  - reflexivity.
  - apply page_reply_is_page.
  - reflexivity.
Defined.


Lemma get_id_transport_failure_witness :
  exists st',
    get_id false "ann" None [TransportFailure "timed out"] (fresh 1700000000)
    = (Raised (HTTPException 503 (DetailRequestError "timed out")), st', [])
    /\ requests (log st')
       = requests (log (fresh 1700000000)) ++ [id_request "ann" (default "user.fields=id" None)]
    /\ cache_find ("ann", None) (id_cache st') = None.
Proof.
  apply (get_id_transport_failure false "ann" None "timed out" [] (fresh 1700000000)).
  reflexivity.
Defined.


Lemma TwitterUser_from_dict_returns_iff_witness :
  TwitterUser_from_dict sample_validate_int sample_validate_str (user_record "1" "ann" "Ann")
  = inr ann.
Proof.
  apply (proj2 (TwitterUser_from_dict_returns_iff sample_validate_int sample_validate_str
                  (user_record "1" "ann" "Ann") ann)).
  eexists _, _, _, _. split; [reflexivity |]. repeat split; reflexivity.
Defined.

Lemma TwitterList_from_dict_returns_iff_witness :
  TwitterList_from_dict sample_validate_int sample_validate_str
    (PyDict [("id", PyStr "84"); ("name", PyStr "friends")])
  = inr {| TwitterList.name := "friends"; TwitterList.id := 84 |}.
Proof.
  apply (proj2 (TwitterList_from_dict_returns_iff sample_validate_int sample_validate_str
                  (PyDict [("id", PyStr "84"); ("name", PyStr "friends")])
                  {| TwitterList.name := "friends"; TwitterList.id := 84 |})).
  eexists _, _, _. split; [reflexivity |]. repeat split; reflexivity.
Defined.

Lemma TwitterUser_from_dict_missing_key_witness :
  TwitterUser_from_dict sample_validate_int sample_validate_str (PyDict [("name", PyInt 0)])
  = inl (Thrown (KeyError (PyStr "id")))
  /\ TwitterUser_from_dict sample_validate_int sample_validate_str
       (PyDict [("id", PyList [])])
     = inl (Thrown (KeyError (PyStr "username")))
  /\ TwitterUser_from_dict sample_validate_int sample_validate_str
       (PyDict [("id", PyList []); ("username", PyStr "ann")])
     = inl (Thrown (KeyError (PyStr "name"))).
Proof.
  split; [| split].
  - apply (proj1 (TwitterUser_from_dict_missing_key sample_validate_int sample_validate_str
                    [("name", PyInt 0)])).
    reflexivity.
  - apply (proj1 (proj2 (TwitterUser_from_dict_missing_key sample_validate_int
                           sample_validate_str [("id", PyList [])]))).
    + discriminate.
    + reflexivity.
  - apply (proj2 (proj2 (TwitterUser_from_dict_missing_key sample_validate_int
                           sample_validate_str
                           [("id", PyList []); ("username", PyStr "ann")]))).
    + discriminate.
    + discriminate.
    + reflexivity.
Defined.

Lemma user_operations_in_order_witness :
  get_followers sample_validate_int sample_validate_str 123 two_pages (fresh 1700000000)
  = (Completed [ann; bob],
     snd (fst (get_lists_for_id 123 "followers" two_pages (fresh 1700000000))), [])
  /\ get_follows sample_validate_int sample_validate_str 123 two_pages (fresh 1700000000)
     = (Completed [ann; bob],
        snd (fst (get_lists_for_id 123 "follows" two_pages (fresh 1700000000))), [])
  /\ get_list_members sample_validate_int sample_validate_str 123 two_pages (fresh 1700000000)
     = (Completed [ann; bob],
        snd (fst (get_lists_for_id 123 "list_members" two_pages (fresh 1700000000))), []).
Proof.
  assert (F : Forall2 (fun v u => TwitterUser_from_dict sample_validate_int
                                    sample_validate_str v = inr u)
                      [user_record "1" "ann" "Ann"; user_record "2" "bob" "Bob"] [ann; bob])
    by (repeat constructor).
  split; [| split].
  - apply (proj1 (user_operations_in_order sample_validate_int sample_validate_str 123
                    _ _ two_pages (fresh 1700000000) _ [] F)).
    vm_compute. reflexivity.
  - apply (proj1 (proj2 (user_operations_in_order sample_validate_int sample_validate_str 123
                           _ _ two_pages (fresh 1700000000) _ [] F))).
    vm_compute. reflexivity.
  - apply (proj2 (proj2 (user_operations_in_order sample_validate_int sample_validate_str 123
                           _ _ two_pages (fresh 1700000000) _ [] F))).
    vm_compute. reflexivity.
Defined.

Lemma get_lists_in_order_witness :
  get_lists sample_validate_int sample_validate_str 123
    [page_reply [PyDict [("id", PyStr "84"); ("name", PyStr "friends")]] None]
    (fresh 1700000000)
  = (Completed [{| TwitterList.name := "friends"; TwitterList.id := 84 |}],
     snd (fst (get_lists_for_id 123 "lists"
                 [page_reply [PyDict [("id", PyStr "84"); ("name", PyStr "friends")]] None]
                 (fresh 1700000000))), []).
Proof.
  apply (get_lists_in_order sample_validate_int sample_validate_str 123
           [PyDict [("id", PyStr "84"); ("name", PyStr "friends")]]
           [{| TwitterList.name := "friends"; TwitterList.id := 84 |}]).
  - repeat constructor.
  - vm_compute. reflexivity.
Defined.

Lemma get_followers_first_bad_record_witness :
  get_followers sample_validate_int sample_validate_str 123
    [page_reply [user_record "1" "ann" "Ann";
                 PyDict [("id", PyStr "84"); ("name", PyStr "friends")];
                 user_record "2" "bob" "Bob"] None]
    (fresh 1700000000)
  = (Failed (Thrown (KeyError (PyStr "username"))),
     snd (fst (get_lists_for_id 123 "followers"
                 [page_reply [user_record "1" "ann" "Ann";
                              PyDict [("id", PyStr "84"); ("name", PyStr "friends")];
                              user_record "2" "bob" "Bob"] None]
                 (fresh 1700000000))), []).
Proof.
  apply (get_followers_first_bad_record sample_validate_int sample_validate_str 123
           [user_record "1" "ann" "Ann"] [ann]
           (PyDict [("id", PyStr "84"); ("name", PyStr "friends")])
           [user_record "2" "bob" "Bob"] (Thrown (KeyError (PyStr "username")))).
  - repeat constructor.
  - reflexivity.
  - vm_compute. reflexivity.
Defined.

Lemma get_followers_object_data_witness :
  exists what,
    get_followers sample_validate_int sample_validate_str 123
      [Answer 200 [] (inr (PyDict [("data", user_record "1" "ann" "Ann")]))]
      (fresh 1700000000)
    = (Failed (Thrown (TypeError what)),
       snd (fst (get_lists_for_id 123 "followers"
                   [Answer 200 [] (inr (PyDict [("data", user_record "1" "ann" "Ann")]))]
                   (fresh 1700000000))), []).
Proof.
  apply (get_followers_object_data sample_validate_int sample_validate_str 123
           "id" (PyStr "1") [("name", PyStr "Ann"); ("username", PyStr "ann")]).
  vm_compute. reflexivity.
Defined.

Section Throttle.
Context {T : Type} `{RateLimitOps T}.
Implicit Types (st : @State T) (script : list Reply).


End Throttle.

